(** * A forecasting bot built on the Metaculus template

    The bot of [main.py] gathers research for a question, builds a prompt,
    asks a language model and turns the model's free text into a structured
    prediction.  This development embeds the control flow of
    [TemplateForecaster] (research dispatch, bound messages, the concurrency
    limiter) and the answer extraction it relies on, and proves the
    properties the specification states about them.

    Conventions.
    - Python [str] is [string]; [os.environ] is a [gmap string string].
    - Python [float] values are exact rationals ([Q]); statements about them
      use [==].
    - An awaited call to an outside service is a [call]; its answer is read
      from a world [W : call -> outcome string], so a failing provider is a
      world that answers [Raised e].
    - Code that logs, awaits and may raise lives in the monad [M]: an outcome
      together with the events it produced, in order. *)

From Stdlib Require Import String Ascii List ZArith QArith Qabs Lia Lqa Bool.
From stdpp Require Import gmap strings list sorting.

(** ** Outcomes, events and the effect monad *)

(** Python exceptions: the ones an extractor raises on text it cannot parse
    and the ones an outside collaborator (provider, model) raises. *)
Inductive exn : Type :=
| ExtractionError (why : string)
| CollaboratorError (what : string).

Inductive outcome (A : Type) : Type :=
| Returned (a : A)
| Raised (e : exn).
Arguments Returned {A} a.
Arguments Raised {A} e.

(** The awaited calls to outside services. *)
Inductive call : Type :=
| AskNewsGetFormattedNews (query : string)
| SmartSearcherInvoke (prompt : string)
| GeneralLlmInvoke (model : string) (prompt : string).

Inductive level : Type := INFO | WARNING.

Inductive event : Type :=
| EvAcquire
| EvRelease
| EvCall (c : call)
| EvLog (lvl : level) (msg : string).

Definition M (A : Type) : Type := (outcome A * list event)%type.

Definition ret {A} (a : A) : M A := (Returned a, []).

Definition bind {A B} (k : A -> M B) (m : M A) : M B :=
  match m with
  | (Returned a, tr) => let '(r, tr') := k a in (r, tr ++ tr')
  | (Raised e, tr) => (Raised e, tr)
  end.

#[global] Instance M_ret : MRet M := @ret.
#[global] Instance M_bind : MBind M := @bind.

Definition logger (lvl : level) (msg : string) : M unit :=
  (Returned tt, [EvLog lvl msg]).

(** [async with sem: body]: the slot is taken before the body and given back
    when the body is left, whether it returned or raised. *)
Definition async_with {A} (body : M A) : M A :=
  let '(r, tr) := body in (r, [EvAcquire] ++ tr ++ [EvRelease]).

Definition result {A} (m : M A) : outcome A := fst m.
Definition trace {A} (m : M A) : list event := snd m.

(** ** Questions *)

Record MetaculusQuestion : Type := {
  question_text : string;
  page_url : string;
  background_info : string;
  resolution_criteria : string;
  fine_print : string
}.

Record MultipleChoiceQuestion : Type := {
  mc_question :> MetaculusQuestion;
  options : list string
}.

Record NumericQuestion : Type := {
  numeric_question :> MetaculusQuestion;
  upper_bound : Q;
  lower_bound : Q;
  open_upper_bound : bool;
  open_lower_bound : bool;
  unit_of_measure : option string
}.

Definition nl : string := String (ascii_of_nat 10) EmptyString.

Fixpoint unlines (ls : list string) : string :=
  match ls with
  | [] => ""
  | [l] => l
  | l :: rest => l +:+ nl +:+ unlines rest
  end.

(** ** Research dispatch *)

Module Research.

Definition getenv (environ : gmap string string) (key : string) : option string :=
  environ !! key.

(** Truth value of what [os.getenv] returns: [None] and the empty string are
    false. *)
Definition truthy (v : option string) : bool :=
  match v with
  | Some s => negb (String.eqb s "")
  | None => false
  end.

Section Dispatch.

(** The answers of the outside services, and [clean_indents] of
    forecasting_tools, whose code is not part of the repository. *)
Variable W : call -> outcome string.
Variable clean_indents : string -> string.

Definition await (c : call) : M string := (W c, [EvCall c]).

Definition _call_perplexity (question : string) (use_open_router : bool) : M string :=
  let prompt := clean_indents (unlines [
    "";
    "            You are an assistant to a superforecaster.";
    "            The superforecaster will give you a question they intend to forecast on.";
    "            To be a great assistant, you generate a concise but detailed rundown of the most relevant news, including if the question would resolve Yes or No based on current information.";
    "            You do not produce forecasts yourself.";
    "";
    "            Question:";
    "            " +:+ question;
    "            "]) in
  let model_name :=
    if use_open_router then "openrouter/perplexity/sonar-reasoning"
    else "perplexity/sonar-pro" in
  response ← await (GeneralLlmInvoke model_name prompt);
  mret response.

Definition _call_exa_smart_searcher (question : string) : M string :=
  let prompt :=
    "You are an assistant to a superforecaster. The superforecaster will give"
    +:+ "you a question they intend to forecast on. To be a great assistant, you generate"
    +:+ "a concise but detailed rundown of the most relevant news, including if the question"
    +:+ "would resolve Yes or No based on current information. You do not produce forecasts yourself."
    +:+ nl +:+ nl +:+ "The question is: " +:+ question in
  response ← await (SmartSearcherInvoke prompt);
  mret response.

Definition run_research (environ : gmap string string) (question : MetaculusQuestion)
  : M string :=
  async_with (
    research ← (
      if truthy (getenv environ "ASKNEWS_CLIENT_ID") && truthy (getenv environ "ASKNEWS_SECRET") then
        await (AskNewsGetFormattedNews (question_text question))
      else if truthy (getenv environ "EXA_API_KEY") then
        _call_exa_smart_searcher (question_text question)
      else if truthy (getenv environ "PERPLEXITY_API_KEY") then
        _call_perplexity (question_text question) false
      else if truthy (getenv environ "OPENROUTER_API_KEY") then
        _call_perplexity (question_text question) true
      else
        logger WARNING ("No research provider found when processing question URL "
                        +:+ page_url question +:+ ". Will pass back empty string.");;
        mret "");
    logger INFO ("Found Research for URL " +:+ page_url question +:+ ":" +:+ nl +:+ research);;
    mret research).

End Dispatch.

(** *** What the specification says: providers in a fixed precedence *)

Inductive provider : Type :=
| AskNews
| ExaSmartSearcher
| Perplexity
| PerplexityOpenRouter.

Definition precedence : list provider :=
  [AskNews; ExaSmartSearcher; Perplexity; PerplexityOpenRouter].

Definition required_credentials (p : provider) : list string :=
  match p with
  | AskNews => ["ASKNEWS_CLIENT_ID"; "ASKNEWS_SECRET"]
  | ExaSmartSearcher => ["EXA_API_KEY"]
  | Perplexity => ["PERPLEXITY_API_KEY"]
  | PerplexityOpenRouter => ["OPENROUTER_API_KEY"]
  end.

Definition configured (environ : gmap string string) (p : provider) : bool :=
  forallb (fun key => truthy (getenv environ key)) (required_credentials p).

(** The provider the dispatcher should use: the first configured one. *)
Definition selected (environ : gmap string string) : option provider :=
  find (configured environ) precedence.

(** The provider an awaited call goes to. *)
Definition provider_of_call (c : call) : option provider :=
  match c with
  | AskNewsGetFormattedNews _ => Some AskNews
  | SmartSearcherInvoke _ => Some ExaSmartSearcher
  | GeneralLlmInvoke model _ =>
      if String.eqb model "perplexity/sonar-pro" then Some Perplexity
      else if String.eqb model "openrouter/perplexity/sonar-reasoning"
           then Some PerplexityOpenRouter
           else None
  end.

Definition calls (tr : list event) : list call :=
  omap (fun ev => match ev with EvCall c => Some c | _ => None end) tr.

(** The providers queried during a run, in order. *)
Definition queried (tr : list event) : list provider :=
  omap provider_of_call (calls tr).

(** The environment with both AskNews credentials unset. *)
Definition without_asknews (environ : gmap string string) : gmap string string :=
  delete "ASKNEWS_CLIENT_ID" (delete "ASKNEWS_SECRET" environ).

Definition warnings (tr : list event) : list string :=
  omap (fun ev => match ev with EvLog WARNING msg => Some msg | _ => None end) tr.

End Research.

(** ** Answer extraction

    [PredictionExtractor] belongs to the forecasting_tools package; the
    repository only calls it.  Its three extractors are modelled from the
    specification's description of them (sections 4.1 to 4.3). *)

Module PredictionExtractor.
Local Open Scope Q_scope.

Definition is_digit (c : ascii) : bool :=
  (48 <=? nat_of_ascii c)%nat && (nat_of_ascii c <=? 57)%nat.

Definition digit_value (c : ascii) : N := N.of_nat (nat_of_ascii c - 48).

(** Modelled from the spec: the scan of 4.1, all the substrings that are a
    number followed by a percent sign, in document order.  A number is a
    maximal run of decimal digits; [run] is the value of the digits read so
    far, [None] outside a run. *)
Fixpoint scan_percentages (run : option N) (text : string) : list N :=
  match text with
  | EmptyString => []
  | String c rest =>
      if is_digit c then
        scan_percentages (Some (10 * default 0%N run + digit_value c)%N) rest
      else if Ascii.eqb c "%" then
        match run with
        | Some n => n :: scan_percentages None rest
        | None => scan_percentages None rest
        end
      else scan_percentages None rest
  end.

Definition percentage_matches (text : string) : list N := scan_percentages None text.

(** Modelled from the spec: the clamp of 4.1 to the caller's range. *)
Definition clamp (lo hi x : Q) : Q :=
  if Qle_bool x lo then lo else if Qle_bool hi x then hi else x.

(** Modelled from the spec: the Percentage Extractor of 4.1,
    [PredictionExtractor.extract_last_percentage_value], which the repository
    calls but does not define: the last match, divided by 100, clamped to
    [[min_prediction, max_prediction]]; no match is an [ExtractionError]. *)
Definition extract_last_percentage_value
    (text : string) (max_prediction min_prediction : Q) : outcome Q :=
  match last (percentage_matches text) with
  | Some n => Returned (clamp min_prediction max_prediction (inject_Z (Z.of_N n) / 100))
  | None => Raised (ExtractionError "no percentage found in the text")
  end.

(** *** Text helpers *)

Fixpoint lines (text : string) : list string :=
  match text with
  | EmptyString => [EmptyString]
  | String c rest =>
      if Ascii.eqb c (ascii_of_nat 10) then EmptyString :: lines rest
      else match lines rest with
           | l :: ls => String c l :: ls
           | [] => [String c EmptyString]
           end
  end.

Fixpoint ltrim (s : string) : string :=
  match s with
  | String c rest => if Ascii.is_space c then ltrim rest else s
  | EmptyString => EmptyString
  end.

Definition trim (s : string) : string :=
  String.rev (ltrim (String.rev (ltrim s))).

Definition lower_ascii (c : ascii) : ascii :=
  let n := nat_of_ascii c in
  if (65 <=? n)%nat && (n <=? 90)%nat then ascii_of_nat (n + 32) else c.

Fixpoint lowercase (s : string) : string :=
  match s with
  | EmptyString => EmptyString
  | String c rest => String (lower_ascii c) (lowercase rest)
  end.

(** Case-insensitive, whitespace-trimmed form of a label. *)
Definition normalize_label (s : string) : string := lowercase (trim s).

(** The text before and after the first colon. *)
Fixpoint break_at_colon (s : string) : option (string * string) :=
  match s with
  | EmptyString => None
  | String c rest =>
      if Ascii.eqb c ":" then Some (EmptyString, rest)
      else match break_at_colon rest with
           | Some (before, after) => Some (String c before, after)
           | None => None
           end
  end.

(** The text before and after the last colon. *)
Definition break_at_last_colon (s : string) : option (string * string) :=
  match break_at_colon (String.rev s) with
  | Some (after, before) => Some (String.rev before, String.rev after)
  | None => None
  end.

Fixpoint strip_prefix (prefix s : string) : option string :=
  match prefix, s with
  | EmptyString, _ => Some s
  | String a prefix', String b s' =>
      if Ascii.eqb a b then strip_prefix prefix' s' else None
  | String _ _, EmptyString => None
  end.

(** Modelled from the spec: the permissive number syntax of 4.3, digits with
    thousands separators and an optional fraction; anything else in the
    token, an exponent included, makes it malformed.  [scale] counts the
    digits after the decimal point, [None] before the point. *)
Fixpoint parse_digits (mantissa : N) (scale : option nat) (seen : bool) (s : string)
  : option Q :=
  match s with
  | EmptyString =>
      if seen
      then Some (Z.of_N mantissa # Z.to_pos (10 ^ Z.of_nat (default 0%nat scale)))
      else None
  | String c rest =>
      if is_digit c then
        parse_digits (10 * mantissa + digit_value c)%N (S <$> scale) true rest
      else if Ascii.eqb c "," then
        match scale with
        | None => parse_digits mantissa scale seen rest
        | Some _ => None
        end
      else if Ascii.eqb c "." then
        match scale with
        | None => parse_digits mantissa (Some 0%nat) seen rest
        | Some _ => None
        end
      else None
  end.

(** Modelled from the spec: a numeric token of 4.3, with an optional sign. *)
Definition parse_number (s : string) : option Q :=
  match trim s with
  | String "-" rest => Qopp <$> parse_digits 0 None false rest
  | t => parse_digits 0 None false t
  end.

(** *** Option lists (4.2) *)

(** Modelled from the spec: the [PredictedOptionList] of section 3, pairs of
    an option label and a probability. *)
Record PredictedOption : Type := {
  option_name : string;
  probability : Q
}.

Definition PredictedOptionList : Type := list PredictedOption.

(** Modelled from the spec: the two policies 4.2 allows for a canonical
    option that the text does not mention, fail or give it the floor
    probability. *)
Inductive missing_option_policy : Type := FailOnMissing | FloorMissing.

(** Modelled from the spec: the floor of 4.2, at the value it gives as an
    example. *)
Definition floor_probability : Q := 0.001.

(** Modelled from the spec: a [label: NN%] line of 4.2, as its normalized
    label and its raw probability. *)
Definition parse_option_line (line : string) : option (string * Q) :=
  match break_at_last_colon line with
  | Some (label, amount) =>
      match String.rev (trim amount) with
      | String "%" digits =>
          match parse_number (String.rev digits) with
          | Some percent => Some (normalize_label label, percent / 100)
          | None => None
          end
      | _ => None
      end
  | None => None
  end.

(** Modelled from the spec: step 1 of 4.2, the scanned lines as a mapping
    from normalized label to raw probability; a later line overrides an
    earlier one. *)
Definition option_table (scanned : list (string * Q)) : gmap string Q :=
  foldl (fun table entry => <[entry.1 := entry.2]> table) ∅ scanned.

(** Modelled from the spec: step 2 of 4.2, the entry of a canonical option,
    found by its normalized label. *)
Definition match_option (policy : missing_option_policy) (table : gmap string Q)
    (label : string) : option Q :=
  match table !! normalize_label label with
  | Some p => Some p
  | None =>
      match policy with
      | FailOnMissing => None
      | FloorMissing => Some floor_probability
      end
  end.

Definition total (ps : list Q) : Q := foldr Qplus 0 ps.

(** Modelled from the spec: step 3 of 4.2, rescale proportionally unless
    the sum is already 1. *)
Definition normalize (ps : list Q) : list Q :=
  if Qeq_bool (total ps) 1 then ps else map (fun p => p / total ps) ps.

(** Modelled from the spec: step 4 of 4.2, raise every probability to the
    floor, then rescale. *)
Definition apply_floor (ps : list Q) : list Q :=
  let floored := map (fun p => if Qle_bool floor_probability p then p else floor_probability) ps in
  map (fun p => p / total floored) floored.

(** Modelled from the spec: the Option-List Extractor of 4.2,
    [PredictionExtractor.extract_option_list_with_percentage_afterwards],
    which the repository calls but does not define. *)
Definition extract_option_list_with_percentage_afterwards
    (policy : missing_option_policy) (text : string) (options : list string)
  : outcome PredictedOptionList :=
  match omap parse_option_line (lines text) with
  | [] => Raised (ExtractionError "no option line found in the text")
  | scanned =>
      match mapM (match_option policy (option_table scanned)) options with
      | None => Raised (ExtractionError "an option has no probability in the text")
      | Some raw =>
          Returned (zip_with Build_PredictedOption options (apply_floor (normalize raw)))
      end
  end.

(** *** Percentile curves (4.3) *)

(** Modelled from the spec: the [NumericDistribution] of section 3, the
    declared percentiles (rank and value) with the bounds and the unit of the
    question. *)
Record NumericDistribution : Type := {
  declared_percentiles : list (N * Q);
  distribution_open_upper_bound : bool;
  distribution_open_lower_bound : bool;
  distribution_upper_bound : Q;
  distribution_lower_bound : Q;
  distribution_unit : option string
}.

Fixpoint parse_rank (acc : option N) (s : string) : option N :=
  match s with
  | EmptyString => acc
  | String c rest =>
      if is_digit c then parse_rank (Some (10 * default 0%N acc + digit_value c)%N) rest
      else None
  end.

(** Modelled from the spec: a [Percentile <p>: <value>] line of 4.3; a line
    of another shape, or with a malformed number, is skipped. *)
Definition parse_percentile_line (line : string) : option (N * Q) :=
  match break_at_colon (trim line) with
  | Some (head, amount) =>
      match strip_prefix "Percentile" head with
      | Some rank =>
          match parse_rank None (trim rank), parse_number amount with
          | Some p, Some v => Some (p, v)
          | _, _ => None
          end
      | None => None
      end
  | None => None
  end.

(** Modelled from the spec: step 2 of 4.3, the declared mapping, kept in
    increasing order of percentile; a later line for the same percentile
    overrides the earlier one. *)
Fixpoint insert_percentile (p : N) (v : Q) (l : list (N * Q)) : list (N * Q) :=
  match l with
  | [] => [(p, v)]
  | (p', v') :: rest =>
      if (p <? p')%N then (p, v) :: l
      else if (p =? p')%N then (p, v) :: rest
      else (p', v') :: insert_percentile p v rest
  end.

Definition declared_mapping (scanned : list (N * Q)) : list (N * Q) :=
  foldl (fun mapping entry => insert_percentile entry.1 entry.2 mapping) [] scanned.

(** Modelled from the spec: step 3 of 4.3, walking the percentiles in
    increasing order, a value below the one before it is raised to it. *)
Fixpoint repair_from (previous : Q) (l : list (N * Q)) : list (N * Q) :=
  match l with
  | [] => []
  | (p, v) :: rest =>
      let v' := if Qle_bool previous v then v else previous in
      (p, v') :: repair_from v' rest
  end.

Definition enforce_monotonic (l : list (N * Q)) : list (N * Q) :=
  match l with
  | [] => []
  | (p, v) :: rest => (p, v) :: repair_from v rest
  end.

(** Modelled from the spec: step 4 of 4.3, clip to the closed bounds of the
    question and leave an open side alone. *)
Definition clip_to_bounds (question : NumericQuestion) (v : Q) : Q :=
  let raised :=
    if open_lower_bound question then v
    else if Qle_bool (lower_bound question) v then v else lower_bound question in
  if open_upper_bound question then raised
  else if Qle_bool raised (upper_bound question) then raised else upper_bound question.

(** Modelled from the spec: the least number of points of 4.3, at the value
    it gives as an example. *)
Definition minimum_points : nat := 2.

(** Modelled from the spec: the Percentile Extractor of 4.3,
    [PredictionExtractor.extract_numeric_distribution_from_list_of_percentile_number_and_probability],
    which the repository calls but does not define. *)
Definition extract_numeric_distribution_from_list_of_percentile_number_and_probability
    (text : string) (question : NumericQuestion) : outcome NumericDistribution :=
  let mapping := declared_mapping (omap parse_percentile_line (lines text)) in
  if (length mapping <? minimum_points)%nat then
    Raised (ExtractionError "fewer than two percentiles found in the text")
  else
    Returned {|
      declared_percentiles :=
        map (fun entry => (entry.1, clip_to_bounds question entry.2))
            (enforce_monotonic mapping);
      distribution_open_upper_bound := open_upper_bound question;
      distribution_open_lower_bound := open_lower_bound question;
      distribution_upper_bound := upper_bound question;
      distribution_lower_bound := lower_bound question;
      distribution_unit := unit_of_measure question
    |}.

End PredictionExtractor.

(** ** The forecast functions of [TemplateForecaster] *)

Record ReasonedPrediction (T : Type) : Type := {
  prediction_value : T;
  reasoning : string
}.
Arguments prediction_value {T} _.
Arguments reasoning {T} _.

Module Forecaster.

(** A synchronous call that may raise, inside the effect monad. *)
Definition lift {A} (r : outcome A) : M A := (r, []).

Section Forecast.

Variable W : call -> outcome string.
Variable clean_indents : string -> string.
(** The model configured as ["default"], the date stamp of [datetime.now()],
    and how Python prints a float. *)
Variable default_llm : string.
Variable today : string.
Variable str_of_float : Q -> string.
(** The text of the binary prompt's f-string: question fields, research and
    date placed in the elicitation protocol. *)
Variable binary_template : MetaculusQuestion -> string -> string -> string.

Definition _run_forecast_on_binary (question : MetaculusQuestion) (research : string)
  : M (ReasonedPrediction Q) :=
  let prompt := clean_indents (binary_template question research today) in
  reasoning ← Research.await W (GeneralLlmInvoke default_llm prompt);
  prediction ← lift (PredictionExtractor.extract_last_percentage_value reasoning 1 0);
  logger INFO ("Forecasted URL " +:+ page_url question +:+ " as " +:+ str_of_float prediction
               +:+ " with reasoning:" +:+ nl +:+ reasoning);;
  mret {| prediction_value := prediction; reasoning := reasoning |}.

(** The policy of the option-list extractor for an option the text leaves
    out, how Python prints the structured predictions, and the texts of the
    two other prompts. *)
Variable policy : PredictionExtractor.missing_option_policy.
Variable str_of_option_list : PredictionExtractor.PredictedOptionList -> string.
Variable str_of_percentiles : list (N * Q) -> string.
Variable multiple_choice_template : MultipleChoiceQuestion -> string -> string -> string.
Variable numeric_template : NumericQuestion -> string -> string -> string -> string -> string.

Definition _run_forecast_on_multiple_choice (question : MultipleChoiceQuestion)
    (research : string) : M (ReasonedPrediction PredictionExtractor.PredictedOptionList) :=
  let prompt := clean_indents (multiple_choice_template question research today) in
  reasoning ← Research.await W (GeneralLlmInvoke default_llm prompt);
  prediction ← lift (PredictionExtractor.extract_option_list_with_percentage_afterwards
                       policy reasoning (options question));
  logger INFO ("Forecasted URL " +:+ page_url question +:+ " as "
               +:+ str_of_option_list prediction
               +:+ " with reasoning:" +:+ nl +:+ reasoning);;
  mret {| prediction_value := prediction; reasoning := reasoning |}.

Definition _create_upper_and_lower_bound_messages (question : NumericQuestion)
  : string * string :=
  let upper_bound_message :=
    if open_upper_bound question then ""
    else "The outcome can not be higher than " +:+ str_of_float (upper_bound question) +:+ "." in
  let lower_bound_message :=
    if open_lower_bound question then ""
    else "The outcome can not be lower than " +:+ str_of_float (lower_bound question) +:+ "." in
  (upper_bound_message, lower_bound_message).

(** The prompt of the numeric forecast; the template receives the lower
    bound message before the upper one, as the f-string places them. *)
Definition numeric_prompt (question : NumericQuestion) (research : string) : string :=
  let '(upper_bound_message, lower_bound_message) :=
    _create_upper_and_lower_bound_messages question in
  clean_indents
    (numeric_template question research today lower_bound_message upper_bound_message).

Definition _run_forecast_on_numeric (question : NumericQuestion) (research : string)
  : M (ReasonedPrediction PredictionExtractor.NumericDistribution) :=
  let prompt := numeric_prompt question research in
  reasoning ← Research.await W (GeneralLlmInvoke default_llm prompt);
  prediction ← lift
    (PredictionExtractor.extract_numeric_distribution_from_list_of_percentile_number_and_probability
       reasoning question);
  logger INFO ("Forecasted URL " +:+ page_url question +:+ " as "
               +:+ str_of_percentiles (PredictionExtractor.declared_percentiles prediction)
               +:+ " with reasoning:" +:+ nl +:+ reasoning);;
  mret {| prediction_value := prediction; reasoning := reasoning |}.

End Forecast.

End Forecaster.

(** ** Questions in flight and the concurrency limiter

    [TemplateForecaster] shares one [asyncio.Semaphore] of capacity
    [_max_concurrent_questions] between all question tasks.  A task is the
    sequence of events of its question, in program order; the scheduler of
    the event loop interleaves the tasks, one event at a time. *)

Module Limiter.

Definition _max_concurrent_questions : nat := 2.

Inductive question : Type :=
| Binary (q : MetaculusQuestion)
| MultipleChoice (q : MultipleChoiceQuestion)
| Numeric (q : NumericQuestion).

Definition common (question : question) : MetaculusQuestion :=
  match question with
  | Binary q => q
  | MultipleChoice q => q
  | Numeric q => q
  end.

Section Pipeline.

Variable W : call -> outcome string.
Variable clean_indents : string -> string.
Variable environ : gmap string string.
Variable default_llm : string.
Variable today : string.
Variable str_of_float : Q -> string.
Variable policy : PredictionExtractor.missing_option_policy.
Variable str_of_option_list : PredictionExtractor.PredictedOptionList -> string.
Variable str_of_percentiles : list (N * Q) -> string.
Variable binary_template : MetaculusQuestion -> string -> string -> string.
Variable multiple_choice_template : MultipleChoiceQuestion -> string -> string -> string.
Variable numeric_template : NumericQuestion -> string -> string -> string -> string -> string.

(** The "respective run_forecast function" of the docstring of
    [TemplateForecaster]: a question goes to the forecast function of its
    type.  Only the events of the forecast matter here, its value is
    dropped. *)
Definition run_forecast (question : question) (research : string) : M unit :=
  match question with
  | Binary q =>
      Forecaster._run_forecast_on_binary W clean_indents default_llm today str_of_float
        binary_template q research;;
      mret tt
  | MultipleChoice q =>
      Forecaster._run_forecast_on_multiple_choice W clean_indents default_llm today policy
        str_of_option_list multiple_choice_template q research;;
      mret tt
  | Numeric q =>
      Forecaster._run_forecast_on_numeric W clean_indents default_llm today str_of_float
        str_of_percentiles numeric_template q research;;
      mret tt
  end.

(** The flow for one question, as the docstring of [TemplateForecaster]
    gives it ("for each question, execute run_research, execute respective
    run_forecast function"): research first, then the forecast on that
    research.  The parent class [ForecastBot], which drives it, is part of
    forecasting_tools. *)
Definition forecast_question (question : question) : M unit :=
  research ← Research.run_research W clean_indents environ (common question);
  run_forecast question research.

End Pipeline.

(** A task: the events it has performed and those still to come. *)
Record task : Type := {
  finished : list event;
  pending : list event
}.

(** [asyncio.Semaphore]: the number of free slots and the tasks waiting for
    one, in order of arrival. *)
Record semaphore : Type := {
  _value : nat;
  _waiters : list nat
}.

Definition _concurrency_limiter : semaphore :=
  {| _value := _max_concurrent_questions; _waiters := [] |}.

(** The shared limiter and the tasks of the run. *)
Record state : Type := {
  limiter : semaphore;
  tasks : list task
}.

Abbreviation value st := (_value (limiter st)).
Abbreviation waiters st := (_waiters (limiter st)).

Definition spawn (program : list event) : task :=
  {| finished := []; pending := program |}.

Definition start (programs : list (list event)) : state :=
  {| limiter := _concurrency_limiter; tasks := map spawn programs |}.

Definition proceed (t : task) : task :=
  match pending t with
  | [] => t
  | ev :: rest => {| finished := finished t ++ [ev]; pending := rest |}
  end.

(** One turn of task [i].  [EvAcquire] is [asyncio.Semaphore.acquire] at
    the entry of [async with]: the slot is taken at once when one is free and
    nobody waits; otherwise the task joins the queue, and only the head of
    the queue takes the next free slot.  [EvRelease] is [release] at the exit
    of [async with].  Any other event just happens.  [None]: the task cannot
    move (it is done, or it waits). *)
Definition step (i : nat) (st : state) : option state :=
  match tasks st !! i with
  | None => None
  | Some t =>
      let moved := <[i := proceed t]> (tasks st) in
      match pending t with
      | [] => None
      | EvAcquire :: _ =>
          match waiters st with
          | [] =>
              if (0 <? value st)%nat then
                Some {| limiter := {| _value := pred (value st); _waiters := [] |};
                        tasks := moved |}
              else
                Some {| limiter := {| _value := value st; _waiters := [i] |};
                        tasks := tasks st |}
          | first :: others =>
              if decide (first = i) then
                if (0 <? value st)%nat then
                  Some {| limiter := {| _value := pred (value st); _waiters := others |};
                          tasks := moved |}
                else None
              else if decide (i ∈ others) then None
              else
                Some {| limiter := {| _value := value st; _waiters := waiters st ++ [i] |};
                        tasks := tasks st |}
          end
      | EvRelease :: _ =>
          Some {| limiter := {| _value := S (value st); _waiters := waiters st |};
                  tasks := moved |}
      | _ :: _ =>
          Some {| limiter := {| _value := value st; _waiters := waiters st |};
                  tasks := moved |}
      end
  end.

(** The state after a schedule: the tasks take turns in the given order; a
    turn of a task that cannot move changes nothing. *)
Fixpoint exec (schedule : list nat) (st : state) : state :=
  match schedule with
  | [] => st
  | i :: rest => exec rest (default st (step i st))
  end.

(** Whether a task holds a slot after the events it has performed. *)
Fixpoint holds_after (held : bool) (events : list event) : bool :=
  match events with
  | [] => held
  | EvAcquire :: rest => holds_after true rest
  | EvRelease :: rest => holds_after false rest
  | _ :: rest => holds_after held rest
  end.

Definition holding (t : task) : bool := holds_after false (finished t).

(** The number of questions inside the section the semaphore guards. *)
Definition holders (st : state) : nat :=
  sum_list (map (fun t => if holding t then 1 else 0)%nat (tasks st)).

(** A question is in flight from its first event to its last: from the
    moment it takes its slot until its forecast is done. *)
Definition in_flight (t : task) : bool :=
  match finished t, pending t with
  | _ :: _, _ :: _ => true
  | _, _ => false
  end.

Definition questions_in_flight (st : state) : nat :=
  sum_list (map (fun t => if in_flight t then 1 else 0)%nat (tasks st)).

End Limiter.

(** ** Sample worlds and questions

    Concrete environments, questions and model answers on which the
    properties below are run. *)

Module Samples.
Import Research.

(** A provider that fails while another one is configured behind it. *)
Definition asknews_down (c : call) : outcome string :=
  match c with
  | AskNewsGetFormattedNews _ => Raised (CollaboratorError "AskNews: 429 Too Many Requests")
  | _ => Returned "Sunny spells expected."
  end.

Definition asknews_and_exa : gmap string string :=
  {[ "ASKNEWS_CLIENT_ID" := "id"; "ASKNEWS_SECRET" := "secret"; "EXA_API_KEY" := "exa" ]}.

Definition client_id_only : gmap string string :=
  {[ "ASKNEWS_CLIENT_ID" := "id"; "PERPLEXITY_API_KEY" := "pplx" ]}.

Definition rain : MetaculusQuestion :=
  {| question_text := "Will it rain tomorrow?";
     page_url := "https://www.metaculus.com/questions/1/";
     background_info := ""; resolution_criteria := ""; fine_print := "" |}.

(** A world in which every awaited call fails. *)
Definition model_down : call -> outcome string :=
  fun _ => Raised (CollaboratorError "model call timed out").

(** A world in which every awaited call answers [text]. *)
Definition answers (text : string) : call -> outcome string :=
  fun _ => Returned text.

Definition bare_template (question : MetaculusQuestion) (research today : string) : string :=
  unlines [question_text question; research; today].

Definition bare_mc_template (question : MultipleChoiceQuestion) (research today : string)
  : string :=
  unlines [question_text question; research; today].

Definition bare_numeric_template (question : NumericQuestion)
    (research today lower_bound_message upper_bound_message : string) : string :=
  unlines [question_text question; research; today; lower_bound_message; upper_bound_message].

(** A stand-in for the way Python prints a float. *)
Definition print_float (x : Q) : string := "<float>".

(** The result of the binary forecast when the model answers [text]. *)
Definition binary_forecast_on (text : string) : outcome (ReasonedPrediction Q) :=
  result (Forecaster._run_forecast_on_binary (answers text) id "metaculus/openai/o4-mini"
            "2025-06-01" print_float bare_template rain "").

End Samples.

(** ** Properties of the research dispatch *)

Module ResearchFacts.
Import Research Samples.

Section Facts.

Variable W : call -> outcome string.
Variable clean_indents : string -> string.

Abbreviation run := (run_research W clean_indents).

(** The if/elif chain of [run_research] tests the providers in the order of
    [precedence], each by its [required_credentials]. *)
Lemma selected_chain environ :
  selected environ =
    if truthy (getenv environ "ASKNEWS_CLIENT_ID") && truthy (getenv environ "ASKNEWS_SECRET")
    then Some AskNews
    else if truthy (getenv environ "EXA_API_KEY") then Some ExaSmartSearcher
    else if truthy (getenv environ "PERPLEXITY_API_KEY") then Some Perplexity
    else if truthy (getenv environ "OPENROUTER_API_KEY") then Some PerplexityOpenRouter
    else None.
Proof.
  unfold selected, precedence, configured; simpl.
  repeat rewrite andb_true_r.
  destruct (truthy (getenv environ "ASKNEWS_CLIENT_ID") && truthy (getenv environ "ASKNEWS_SECRET"));
    [reflexivity|].
  destruct (truthy (getenv environ "EXA_API_KEY")); [reflexivity|].
  destruct (truthy (getenv environ "PERPLEXITY_API_KEY")); [reflexivity|].
  destruct (truthy (getenv environ "OPENROUTER_API_KEY")); reflexivity.
Qed.

Ltac chain environ :=
  rewrite (selected_chain environ); unfold run_research;
  destruct (truthy (getenv environ "ASKNEWS_CLIENT_ID") && truthy (getenv environ "ASKNEWS_SECRET"));
  [|destruct (truthy (getenv environ "EXA_API_KEY"));
    [|destruct (truthy (getenv environ "PERPLEXITY_API_KEY"));
      [|destruct (truthy (getenv environ "OPENROUTER_API_KEY"))]]].

(** What a run does, by the provider the precedence selects. *)
Lemma run_research_cases environ question :
  match selected environ with
  | Some p =>
      exists c, calls (trace (run environ question)) = [c]
                /\ provider_of_call c = Some p
                /\ result (run environ question) = W c
                /\ warnings (trace (run environ question)) = []
  | None =>
      calls (trace (run environ question)) = []
      /\ result (run environ question) = Returned ""
      /\ warnings (trace (run environ question)) =
           ["No research provider found when processing question URL "
            +:+ page_url question +:+ ". Will pass back empty string."]
  end.
Proof.
  chain environ;
    unfold _call_exa_smart_searcher, _call_perplexity, await, mbind, M_bind, bind,
      async_with, logger, mret, M_ret, ret;
    try (match goal with |- context [W ?c] => exists c; destruct (W c) end; simpl; auto).
  - simpl. auto.
Qed.

(** C2: every run of [run_research] queries exactly one provider, the first
    of AskNews, Exa smart searcher, Perplexity, Perplexity via OpenRouter
    whose credentials are set in the environment, and returns that provider's
    answer; when no provider is configured it queries none, logs a warning
    and returns the empty string instead of raising. *)
Theorem run_research_queries_first_configured environ question :
  match selected environ with
  | Some p =>
      queried (trace (run environ question)) = [p]
      /\ exists c, calls (trace (run environ question)) = [c]
                   /\ provider_of_call c = Some p
                   /\ result (run environ question) = W c
  | None =>
      queried (trace (run environ question)) = []
      /\ calls (trace (run environ question)) = []
      /\ result (run environ question) = Returned ""
      /\ length (warnings (trace (run environ question))) = 1
  end.
Proof.
  pose proof (run_research_cases environ question) as H.
  destruct (selected environ) as [p|].
  - destruct H as (c & Hc & Hp & Hr & _). split.
    + unfold queried. rewrite Hc. simpl. rewrite Hp. reflexivity.
    + exists c. auto.
  - destruct H as (Hc & Hr & Hw). unfold queried. rewrite Hc, Hr, Hw. auto.
Qed.

(** The Perplexity helper makes one model call, to the OpenRouter model when
    [use_open_router] is set and to [perplexity/sonar-pro] otherwise, asks it
    about the question, and returns or raises what that call does. *)
Theorem call_perplexity_chooses_model question use_open_router :
  exists prompt,
    calls (trace (_call_perplexity W clean_indents question use_open_router))
    = [GeneralLlmInvoke (if use_open_router then "openrouter/perplexity/sonar-reasoning"
                         else "perplexity/sonar-pro") prompt]
    /\ result (_call_perplexity W clean_indents question use_open_router)
       = W (GeneralLlmInvoke (if use_open_router then "openrouter/perplexity/sonar-reasoning"
                              else "perplexity/sonar-pro") prompt)
    /\ provider_of_call (GeneralLlmInvoke
         (if use_open_router then "openrouter/perplexity/sonar-reasoning"
          else "perplexity/sonar-pro") prompt)
       = Some (if use_open_router then PerplexityOpenRouter else Perplexity).
Proof.
  unfold _call_perplexity, await, mbind, M_bind, bind, mret, M_ret, ret, result, trace.
  eexists. split; [|split].
  - destruct (W _); simpl; reflexivity.
  - destruct (W _); simpl; reflexivity.
  - destruct use_open_router; reflexivity.
Qed.

(** C3: when the provider selected by the precedence is configured and its
    call raises, [run_research] raises the same exception: the failure is not
    swallowed, no later provider is tried, and no text is returned in its
    place. *)
Theorem run_research_propagates_provider_failure environ question p c e :
  selected environ = Some p ->
  In c (calls (trace (run environ question))) ->
  W c = Raised e ->
  result (run environ question) = Raised e
  /\ queried (trace (run environ question)) = [p]
  /\ calls (trace (run environ question)) = [c]
  /\ (forall text, result (run environ question) <> Returned text).
Proof.
  intros Hsel Hin Hfail.
  pose proof (run_research_cases environ question) as H.
  rewrite Hsel in H. destruct H as (c' & Hc & Hp & Hr & _).
  rewrite Hc in Hin. destruct Hin as [->|[]].
  unfold queried. rewrite Hc, Hr, Hfail. simpl. rewrite Hp.
  split; [reflexivity|split; [reflexivity|split; [reflexivity|discriminate]]].
Qed.

(** Reading a key other than the two AskNews credentials is not affected by
    unsetting them. *)
Lemma getenv_without_asknews environ key :
  key <> "ASKNEWS_CLIENT_ID" -> key <> "ASKNEWS_SECRET" ->
  getenv (without_asknews environ) key = getenv environ key.
Proof.
  intros H1 H2. unfold getenv, without_asknews.
  rewrite lookup_delete_ne by congruence.
  rewrite lookup_delete_ne by congruence. reflexivity.
Qed.

Lemma without_asknews_unconfigured environ :
  truthy (getenv (without_asknews environ) "ASKNEWS_CLIENT_ID") = false.
Proof. unfold getenv, without_asknews. rewrite lookup_delete_eq. reflexivity. Qed.

(** C9: AskNews is selected only when both ASKNEWS_CLIENT_ID and
    ASKNEWS_SECRET are set; when one of them is missing (or empty), AskNews is
    not queried and the run is the run of the same environment with both
    AskNews variables unset. *)
Theorem asknews_skipped_unless_both_credentials environ question :
  truthy (getenv environ "ASKNEWS_CLIENT_ID") && truthy (getenv environ "ASKNEWS_SECRET") = false ->
  selected environ <> Some AskNews
  /\ ~ In AskNews (queried (trace (run environ question)))
  /\ run environ question = run (without_asknews environ) question.
Proof.
  intros Hoff.
  assert (Hsel : selected environ <> Some AskNews).
  { rewrite selected_chain, Hoff.
    repeat (match goal with |- context [if ?b then _ else _] => destruct b end);
      discriminate. }
  split; [exact Hsel|split].
  - pose proof (run_research_cases environ question) as H. unfold queried.
    destruct (selected environ) as [p|].
    + destruct H as (c & Hc & Hp & _). rewrite Hc. simpl. rewrite Hp.
      intros [Heq|[]]. congruence.
    + destruct H as (Hc & _). rewrite Hc. intros [].
  - unfold run_research. rewrite Hoff, without_asknews_unconfigured. simpl.
    rewrite !getenv_without_asknews by discriminate. reflexivity.
Qed.

End Facts.

Lemma run_research_propagates_provider_failure_witness :
  selected asknews_and_exa = Some AskNews
  /\ result (run_research asknews_down id asknews_and_exa rain)
     = Raised (CollaboratorError "AskNews: 429 Too Many Requests")
  /\ queried (trace (run_research asknews_down id asknews_and_exa rain)) = [AskNews].
Proof.
  split; [reflexivity|].
  destruct (run_research_propagates_provider_failure asknews_down id asknews_and_exa rain
              AskNews (AskNewsGetFormattedNews "Will it rain tomorrow?")
              (CollaboratorError "AskNews: 429 Too Many Requests"))
    as (Hr & Hq & _); [reflexivity | left; reflexivity | reflexivity |].
  split; assumption.
Defined.

Lemma asknews_skipped_unless_both_credentials_witness :
  queried (trace (run_research asknews_down id client_id_only rain)) = [Perplexity]
  /\ run_research asknews_down id client_id_only rain
     = run_research asknews_down id (without_asknews client_id_only) rain.
Proof.
  split; [reflexivity|].
  apply (asknews_skipped_unless_both_credentials asknews_down id client_id_only rain).
  reflexivity.
Defined.

End ResearchFacts.

(** ** Properties of the binary forecast *)

Module BinaryFacts.
Import PredictionExtractor Forecaster Samples.
Local Open Scope Q_scope.

(** The state of the digit run after a piece of text. *)
Fixpoint run_after (run : option N) (text : string) : option N :=
  match text with
  | EmptyString => run
  | String c rest =>
      if is_digit c then run_after (Some (10 * default 0%N run + digit_value c)%N) rest
      else run_after None rest
  end.

(** Scanning is compositional: the matches of a text are the matches of a
    prefix followed by the matches of the rest, read from the run the prefix
    ends in. *)
Lemma scan_percentages_app (pre post : string) : forall run,
  scan_percentages run (pre +:+ post)
  = scan_percentages run pre ++ scan_percentages (run_after run pre) post.
Proof.
  induction pre as [|c pre IH]; intros run; simpl; [reflexivity|].
  destruct (is_digit c); [apply IH|].
  destruct (Ascii.eqb c "%"); [destruct run|]; simpl; rewrite IH; reflexivity.
Qed.

(** A line that starts with a letter starts a fresh run, whatever precedes. *)
Lemma matches_before_final_line (pre line : string) (n : N) :
  (forall run, scan_percentages run line = [n]) ->
  percentage_matches (pre +:+ line) = percentage_matches pre ++ [n].
Proof.
  intros Hline. unfold percentage_matches.
  rewrite scan_percentages_app, Hline. reflexivity.
Qed.

Lemma clamp_bounds (lo hi x : Q) : lo <= hi -> lo <= clamp lo hi x <= hi.
Proof.
  intros Hle. unfold clamp.
  destruct (Qle_bool x lo) eqn:Hlo; [lra|].
  destruct (Qle_bool hi x) eqn:Hhi; [lra|].
  assert (~ x <= lo) by (rewrite <- Qle_bool_iff; congruence).
  assert (~ hi <= x) by (rewrite <- Qle_bool_iff; congruence).
  lra.
Qed.

Lemma clamp_inside (lo hi x : Q) : lo <= x -> x <= hi -> clamp lo hi x == x.
Proof.
  intros H1 H2. unfold clamp.
  destruct (Qle_bool x lo) eqn:Hlo; [apply Qle_bool_iff in Hlo; lra|].
  destruct (Qle_bool hi x) eqn:Hhi; [apply Qle_bool_iff in Hhi; lra|].
  reflexivity.
Qed.

Lemma clamp_above (lo hi x : Q) : lo <= hi -> hi <= x -> clamp lo hi x == hi.
Proof.
  intros H1 H2. unfold clamp.
  destruct (Qle_bool x lo) eqn:Hlo; [apply Qle_bool_iff in Hlo; lra|].
  destruct (Qle_bool hi x) eqn:Hhi; [reflexivity|].
  assert (~ hi <= x) by (rewrite <- Qle_bool_iff; congruence). lra.
Qed.

Section Facts.

Variable W : call -> outcome string.
Variable clean_indents : string -> string.
Variable default_llm : string.
Variable today : string.
Variable str_of_float : Q -> string.
Variable binary_template : MetaculusQuestion -> string -> string -> string.

Abbreviation forecast :=
  (_run_forecast_on_binary W clean_indents default_llm today str_of_float binary_template).
Abbreviation model_call question research :=
  (GeneralLlmInvoke default_llm (clean_indents (binary_template question research today))).

(** The forecast is the extraction, with bounds 0 and 1, of what the model
    answered; the reasoning is the answer itself. *)
Lemma run_forecast_on_binary_result question research text :
  W (model_call question research) = Returned text ->
  result (forecast question research) =
    match extract_last_percentage_value text 1 0 with
    | Returned v => Returned {| prediction_value := v; reasoning := text |}
    | Raised e => Raised e
    end.
Proof.
  intros HW. unfold _run_forecast_on_binary, Research.await, lift, logger,
    mbind, M_bind, bind, mret, M_ret, ret, result.
  rewrite HW. simpl.
  destruct (extract_last_percentage_value text 1 0); reflexivity.
Qed.

Lemma forecast_of_last_match question research text earlier n :
  W (model_call question research) = Returned text ->
  percentage_matches text = earlier ++ [n] ->
  result (forecast question research) =
    Returned {| prediction_value := clamp 0 1 (inject_Z (Z.of_N n) / 100);
                reasoning := text |}.
Proof.
  intros HW Hm. rewrite (run_forecast_on_binary_result _ _ _ HW).
  unfold extract_last_percentage_value. rewrite Hm, last_snoc. reflexivity.
Qed.

(** When the model call of the binary forecast raises, the forecast raises
    the same exception: it asked the default model once and logged nothing. *)
Theorem binary_forecast_propagates_model_failure question research e :
  W (model_call question research) = Raised e ->
  result (forecast question research) = Raised e
  /\ trace (forecast question research) = [EvCall (model_call question research)].
Proof.
  intros HW. unfold _run_forecast_on_binary, Research.await, lift, logger,
    mbind, M_bind, bind, mret, M_ret, ret, result, trace.
  rewrite HW. simpl. split; reflexivity.
Qed.

(** C1, as the code has it: the caller passes the bounds 0 and 1, so the
    value is clamped to the closed interval [0, 1].  A text with a percentage
    is never rejected, its value lies in [0, 1], and an answer ending in
    [Probability: 0%] gives exactly 0 and one ending in [Probability: 100%]
    exactly 1. *)
Theorem binary_forecast_clamped_to_closed_unit_interval question research text :
  W (model_call question research) = Returned text ->
  (percentage_matches text <> [] ->
     exists rp, result (forecast question research) = Returned rp
                /\ 0 <= prediction_value rp <= 1)
  /\ (forall pre, text = pre +:+ "Probability: 0%" ->
        exists rp, result (forecast question research) = Returned rp
                   /\ prediction_value rp == 0)
  /\ (forall pre, text = pre +:+ "Probability: 100%" ->
        exists rp, result (forecast question research) = Returned rp
                   /\ prediction_value rp == 1).
Proof.
  intros HW. split; [|split].
  - intros Hne.
    destruct (percentage_matches text) as [|m ms] eqn:Hm using rev_ind; [congruence|].
    eexists. split; [apply (forecast_of_last_match _ _ _ _ _ HW Hm)|].
    simpl. apply clamp_bounds. lra.
  - intros pre ->. eexists. split.
    + apply (forecast_of_last_match _ _ _ (percentage_matches pre) 0%N HW).
      apply matches_before_final_line. intros run. reflexivity.
    + reflexivity.
  - intros pre ->. eexists. split.
    + apply (forecast_of_last_match _ _ _ (percentage_matches pre) 100%N HW).
      apply matches_before_final_line. intros run. reflexivity.
    + reflexivity.
Qed.

(** C4, as the code has it: the forecast is the last percentage of the text,
    in document order, divided by 100 and clamped to [0, 1]; it is exactly the
    last percentage divided by 100 whenever that percentage is at most 100.
    A text that ends in "...maybe 30%... Probability: 62%" is forecast as
    0.62, not 0.30. *)
Theorem binary_forecast_takes_last_percentage question research text :
  W (model_call question research) = Returned text ->
  (forall earlier n, percentage_matches text = earlier ++ [n] ->
     exists rp, result (forecast question research) = Returned rp
       /\ reasoning rp = text
       /\ prediction_value rp == clamp 0 1 (inject_Z (Z.of_N n) / 100)
       /\ ((n <= 100)%N -> prediction_value rp == inject_Z (Z.of_N n) / 100)
       /\ ((100 <= n)%N -> prediction_value rp == 1))
  /\ (forall pre, text = pre +:+ "...maybe 30%... Probability: 62%" ->
        exists rp, result (forecast question research) = Returned rp
          /\ prediction_value rp == 0.62 /\ ~ prediction_value rp == 0.30).
Proof.
  intros HW. split.
  - intros earlier n Hm.
    eexists. split; [apply (forecast_of_last_match _ _ _ _ _ HW Hm)|].
    simpl. split; [reflexivity|split; [reflexivity|split]].
    + intros Hn. apply clamp_inside.
      * apply Qle_shift_div_l; [reflexivity|]. rewrite Qmult_0_l.
        change 0 with (inject_Z 0). rewrite <- Zle_Qle. lia.
      * apply Qle_shift_div_r; [reflexivity|]. rewrite Qmult_1_l.
        change 100 with (inject_Z 100). rewrite <- Zle_Qle. lia.
    + intros Hn. apply clamp_above; [lra|].
      apply Qle_shift_div_l; [reflexivity|]. rewrite Qmult_1_l.
      change 100 with (inject_Z 100). rewrite <- Zle_Qle. lia.
  - intros pre ->. eexists. split.
    + apply (forecast_of_last_match _ _ _ (percentage_matches pre ++ [30%N]) 62%N HW).
      unfold percentage_matches. rewrite scan_percentages_app, <- app_assoc.
      reflexivity.
    + simpl. split; [reflexivity|]. intros H. discriminate H.
Qed.

End Facts.

Lemma binary_forecast_propagates_model_failure_witness :
  result (_run_forecast_on_binary model_down id "metaculus/openai/o4-mini" "2025-06-01"
            print_float bare_template rain "")
  = Raised (CollaboratorError "model call timed out").
Proof.
  apply (binary_forecast_propagates_model_failure model_down id "metaculus/openai/o4-mini"
           "2025-06-01" print_float bare_template rain "").
  reflexivity.
Defined.

(** Counterexample to C1 as the specification states it: an answer ending in
    [Probability: 0%] is forecast as exactly 0, and one ending in
    [Probability: 100%] as exactly 1. *)
Lemma binary_forecast_reaches_zero_and_one :
  (exists rp, binary_forecast_on (unlines ["Nothing points to a Yes."; "Probability: 0%"])
              = Returned rp /\ prediction_value rp == 0)
  /\ (exists rp, binary_forecast_on (unlines ["It has already happened."; "Probability: 100%"])
                 = Returned rp /\ prediction_value rp == 1).
Proof. split; eexists; split; reflexivity. Qed.

Lemma binary_forecast_clamped_to_closed_unit_interval_witness :
  exists rp, binary_forecast_on (unlines ["Nothing points to a Yes."; "Probability: 0%"])
             = Returned rp /\ prediction_value rp == 0.
Proof.
  destruct (binary_forecast_clamped_to_closed_unit_interval
              (answers (unlines ["Nothing points to a Yes."; "Probability: 0%"]))
              id "metaculus/openai/o4-mini" "2025-06-01" print_float bare_template
              rain "" (unlines ["Nothing points to a Yes."; "Probability: 0%"]) eq_refl)
    as (_ & Hzero & _).
  exact (Hzero ("Nothing points to a Yes." +:+ nl) eq_refl).
Defined.

(** Counterexample to C4 as the specification states it, when the last percentage
    exceeds 100: the forecast is 1, not that percentage divided by 100. *)
Lemma binary_forecast_clamps_last_percentage :
  percentage_matches "...maybe 30%... Probability: 150%" = [30%N; 150%N]
  /\ exists rp, binary_forecast_on "...maybe 30%... Probability: 150%" = Returned rp
               /\ prediction_value rp == 1
               /\ ~ prediction_value rp == inject_Z 150 / 100.
Proof.
  split; [reflexivity|]. eexists. split; [reflexivity|]. split; [reflexivity|].
  simpl. intros H. discriminate H.
Qed.

Lemma binary_forecast_takes_last_percentage_witness :
  percentage_matches "...maybe 30%... Probability: 62%" = [30%N; 62%N]
  /\ exists rp, binary_forecast_on "...maybe 30%... Probability: 62%" = Returned rp
               /\ prediction_value rp == 0.62
               /\ ~ prediction_value rp == 0.30.
Proof.
  split; [reflexivity|].
  destruct (binary_forecast_takes_last_percentage
              (answers "...maybe 30%... Probability: 62%")
              id "metaculus/openai/o4-mini" "2025-06-01" print_float bare_template
              rain "" "...maybe 30%... Probability: 62%" eq_refl)
    as (_ & Hlast).
  exact (Hlast "" eq_refl).
Defined.

End BinaryFacts.

(** ** Properties of the numeric bound messages *)

Module BoundFacts.
Import Forecaster.

(** C10: for every numeric question the message of an open bound is the
    empty string and the message of a closed bound is the sentence "The
    outcome can not be higher than {upper_bound}." (respectively "lower than
    {lower_bound}."); so a bound is asserted, in the messages and in the
    prompt built from them, exactly when it is closed. *)
Theorem bound_messages_assert_closed_bounds
    (clean_indents : string -> string) (today : string) (str_of_float : Q -> string)
    (numeric_template : NumericQuestion -> string -> string -> string -> string -> string)
    (question : NumericQuestion) (research : string) :
  let messages := _create_upper_and_lower_bound_messages str_of_float question in
  messages.1 =
    (if open_upper_bound question then ""
     else "The outcome can not be higher than " +:+ str_of_float (upper_bound question) +:+ ".")
  /\ messages.2 =
    (if open_lower_bound question then ""
     else "The outcome can not be lower than " +:+ str_of_float (lower_bound question) +:+ ".")
  /\ (messages.1 <> "" <-> open_upper_bound question = false)
  /\ (messages.2 <> "" <-> open_lower_bound question = false)
  /\ numeric_prompt clean_indents today str_of_float numeric_template question research
     = clean_indents (numeric_template question research today messages.2 messages.1).
Proof.
  unfold numeric_prompt, _create_upper_and_lower_bound_messages. simpl.
  split; [reflexivity|split; [reflexivity|split; [|split; [|reflexivity]]]].
  - destruct (open_upper_bound question); split; intros H;
      try congruence; try discriminate.
  - destruct (open_lower_bound question); split; intros H;
      try congruence; try discriminate.
Qed.

End BoundFacts.

(** ** Properties of the multiple-choice forecast *)

Module OptionFacts.
Import PredictionExtractor Forecaster Samples.
Local Open Scope Q_scope.

Lemma normalize_length (ps : list Q) : length (normalize ps) = length ps.
Proof. unfold normalize. destruct (Qeq_bool (total ps) 1); [reflexivity|apply length_map]. Qed.

Lemma apply_floor_length (ps : list Q) : length (apply_floor ps) = length ps.
Proof. unfold apply_floor. rewrite !length_map. reflexivity. Qed.

(** Pairing the options with as many probabilities keeps the options. *)
Lemma names_of_zip (names : list string) : forall ps : list Q,
  length ps = length names ->
  map option_name (zip_with Build_PredictedOption names ps) = names.
Proof.
  induction names as [|name names IH]; intros [|p ps] Hlen; simpl in *;
    try reflexivity; try discriminate.
  f_equal. apply IH. lia.
Qed.

(** A parsed list names the canonical options, in their order, and carries
    for each the floored, rescaled probability of its own line. *)
Lemma extract_option_list_shape policy text options prediction :
  extract_option_list_with_percentage_afterwards policy text options = Returned prediction ->
  map option_name prediction = options
  /\ exists raw,
       mapM (match_option policy (option_table (omap parse_option_line (lines text)))) options
       = Some raw
       /\ map probability prediction = apply_floor (normalize raw).
Proof.
  unfold extract_option_list_with_percentage_afterwards.
  destruct (omap parse_option_line (lines text)) as [|entry scanned]; [discriminate|].
  destruct (mapM _ options) as [raw|] eqn:Hraw; [|discriminate].
  intros [= <-].
  assert (Hlen : length (apply_floor (normalize raw)) = length options).
  { rewrite apply_floor_length, normalize_length. symmetry.
    apply (length_mapM _ _ _ Hraw). }
  split; [apply names_of_zip; exact Hlen|].
  exists raw. split; [reflexivity|].
  revert Hlen. generalize (apply_floor (normalize raw)). clear Hraw.
  induction options as [|o os IH]; intros [|p ps] Hlen; simpl in *;
    try reflexivity; try discriminate.
  f_equal. apply IH. lia.
Qed.

(** The option lines of a text, as normalized label and raw probability. *)
Definition scanned (text : string) : list (string * Q) :=
  omap parse_option_line (lines text).

(** With distinct labels, the table built line after line is the mapping of
    the lines. *)
Lemma option_table_union (entries : list (string * Q)) : forall table : gmap string Q,
  NoDup (entries.*1) ->
  foldl (fun table entry => <[entry.1 := entry.2]> table) table entries
  = list_to_map entries ∪ table.
Proof.
  induction entries as [|[label p] entries IH]; intros table Hnd.
  - symmetry. apply (left_id_L ∅ (∪)).
  - rewrite fmap_cons in Hnd. apply NoDup_cons in Hnd as [Hfresh Hnd].
    cbn [foldl list_to_map foldr fst snd uncurry]. rewrite (IH _ Hnd).
    rewrite <- insert_union_l. symmetry. apply insert_union_r.
    apply not_elem_of_list_to_map_1. exact Hfresh.
Qed.

(** The table does not depend on the order of lines with distinct labels. *)
Lemma option_table_reordered (entries1 entries2 : list (string * Q)) :
  NoDup (entries1.*1) -> entries1 ≡ₚ entries2 ->
  option_table entries1 = option_table entries2.
Proof.
  intros Hnd Hperm. unfold option_table.
  rewrite !option_table_union, !(right_id_L ∅ (∪)); [|rewrite <- Hperm; exact Hnd|exact Hnd].
  apply list_to_map_proper; assumption.
Qed.

(** The extraction reads the text only through the table of its lines. *)
Lemma extract_option_list_by_table policy text1 text2 options :
  scanned text1 <> [] -> scanned text2 <> [] ->
  option_table (scanned text1) = option_table (scanned text2) ->
  extract_option_list_with_percentage_afterwards policy text1 options
  = extract_option_list_with_percentage_afterwards policy text2 options.
Proof.
  unfold extract_option_list_with_percentage_afterwards, scanned.
  intros Hne1 Hne2 Htable.
  destruct (omap parse_option_line (lines text1)) as [|e1 l1]; [congruence|].
  destruct (omap parse_option_line (lines text2)) as [|e2 l2]; [congruence|].
  rewrite Htable. reflexivity.
Qed.

Lemma total_scaled (d : Q) (ps : list Q) :
  total (map (fun p => p / d) ps) == total ps / d.
Proof.
  induction ps as [|p ps IH]; simpl.
  - unfold Qdiv. ring.
  - rewrite IH. unfold Qdiv. ring.
Qed.

Lemma total_positive (ps : list Q) :
  ps <> [] -> Forall (fun p => 0 < p) ps -> 0 < total ps.
Proof.
  intros Hne Hall. destruct ps as [|p ps]; [congruence|]. clear Hne.
  revert p Hall. induction ps as [|q ps IH]; intros p Hall; simpl.
  - apply Forall_cons in Hall as [Hp _]. lra.
  - apply Forall_cons in Hall as [Hp Hall]. specialize (IH q Hall). simpl in IH. lra.
Qed.

(** Raised to the floor, every probability is positive. *)
Lemma floored_positive (ps : list Q) :
  Forall (fun p => 0 < p)
    (map (fun p => if Qle_bool floor_probability p then p else floor_probability) ps).
Proof.
  rewrite Forall_map. apply Forall_forall. intros p _. simpl.
  destruct (Qle_bool floor_probability p) eqn:Hle.
  - apply Qle_bool_iff in Hle. unfold floor_probability in Hle. lra.
  - reflexivity.
Qed.

(** After the floor and the rescaling, the probabilities of a list that is
    not empty are positive and sum to 1. *)
Lemma apply_floor_sums_to_one (ps : list Q) :
  ps <> [] ->
  total (apply_floor ps) == 1 /\ Forall (fun p => 0 < p) (apply_floor ps).
Proof.
  intros Hne. unfold apply_floor. cbv zeta.
  set (floored := map (fun p => if Qle_bool floor_probability p then p
                                else floor_probability) ps).
  assert (Hpos : Forall (fun p => 0 < p) floored) by apply floored_positive.
  assert (Htotal : 0 < total floored).
  { apply total_positive; [|exact Hpos].
    unfold floored. destruct ps; [congruence|discriminate]. }
  split.
  - rewrite total_scaled. field. lra.
  - rewrite Forall_map. eapply Forall_impl; [exact Hpos|].
    intros p Hp. simpl. apply Qlt_shift_div_l; [exact Htotal|].
    rewrite Qmult_0_l. exact Hp.
Qed.

Section Facts.

Variable W : call -> outcome string.
Variable clean_indents : string -> string.
Variable default_llm : string.
Variable today : string.
Variable policy : missing_option_policy.
Variable str_of_option_list : PredictedOptionList -> string.
Variable multiple_choice_template : MultipleChoiceQuestion -> string -> string -> string.

Abbreviation forecast :=
  (_run_forecast_on_multiple_choice W clean_indents default_llm today policy
     str_of_option_list multiple_choice_template).

(** A returned forecast is the extraction of the model's answer. *)
Lemma run_forecast_on_multiple_choice_result question research rp :
  result (forecast question research) = Returned rp ->
  W (GeneralLlmInvoke default_llm
       (clean_indents (multiple_choice_template question research today)))
  = Returned (reasoning rp)
  /\ extract_option_list_with_percentage_afterwards policy (reasoning rp) (options question)
     = Returned (prediction_value rp).
Proof.
  unfold _run_forecast_on_multiple_choice, Research.await, lift, logger,
    mbind, M_bind, bind, mret, M_ret, ret, result.
  destruct (W _) as [text|e]; simpl; [|discriminate].
  destruct (extract_option_list_with_percentage_afterwards policy text (options question))
    as [prediction|e] eqn:Hx; simpl; [|discriminate].
  intros [= <-]. simpl. auto.
Qed.

(** C6: whenever the multiple-choice forecast parses the model's text, the
    returned list has exactly one entry per option of the question, in the
    order of [question.options], whatever the order of the lines in the
    text: the entry at a position carries the label of the option at that
    position and the probability computed from the line of the text that
    bears that label, and a text whose option lines are those of the answer
    in another order gives the same list. *)
Theorem multiple_choice_forecast_keeps_canonical_order question research rp :
  result (forecast question research) = Returned rp ->
  map option_name (prediction_value rp) = options question
  /\ length (prediction_value rp) = length (options question)
  /\ (forall i name, options question !! i = Some name ->
        exists entry, prediction_value rp !! i = Some entry /\ option_name entry = name)
  /\ (exists raw,
        Forall2 (fun name p =>
                   match_option policy (option_table (scanned (reasoning rp))) name = Some p)
                (options question) raw
        /\ map probability (prediction_value rp) = apply_floor (normalize raw))
  /\ (forall text,
        NoDup ((scanned text).*1) ->
        scanned text ≡ₚ scanned (reasoning rp) ->
        extract_option_list_with_percentage_afterwards policy text (options question)
        = Returned (prediction_value rp)).
Proof.
  intros Hrun.
  destruct (run_forecast_on_multiple_choice_result _ _ _ Hrun) as [_ Hx].
  destruct (extract_option_list_shape _ _ _ _ Hx) as [Hnames (raw & Hraw & Hprob)].
  split; [exact Hnames|split; [|split; [|split]]].
  - rewrite <- Hnames, length_map. reflexivity.
  - intros i name Hi. rewrite <- Hnames in Hi.
    rewrite list_lookup_fmap in Hi.
    apply fmap_Some in Hi as (entry & He & ->).
    exists entry. split; [exact He|reflexivity].
  - exists raw. split; [|exact Hprob].
    apply mapM_Some. exact Hraw.
  - intros text Hlabels Hperm. rewrite <- Hx.
    assert (Hsome : scanned (reasoning rp) <> []).
    { intros Hnil. unfold extract_option_list_with_percentage_afterwards in Hx.
      unfold scanned in Hnil. rewrite Hnil in Hx. discriminate. }
    apply extract_option_list_by_table.
    + intros Hnil. rewrite Hnil in Hperm. symmetry in Hperm.
      apply Permutation_nil_r in Hperm. contradiction.
    + exact Hsome.
    + apply option_table_reordered; assumption.
Qed.

(** C5: whenever the multiple-choice forecast parses the model's text for a
    question with at least one option, the probabilities of the returned
    list, after the floor, are positive and sum to 1; with floats read as
    exact rationals the sum is exactly 1, so it is within 1e-6 of 1. *)
Theorem multiple_choice_forecast_sums_to_one question research rp :
  result (forecast question research) = Returned rp ->
  options question <> [] ->
  total (map probability (prediction_value rp)) == 1
  /\ Qabs (total (map probability (prediction_value rp)) - 1) <= 1 # 1000000
  /\ Forall (fun p => 0 < p) (map probability (prediction_value rp)).
Proof.
  intros Hrun Hoptions.
  destruct (run_forecast_on_multiple_choice_result _ _ _ Hrun) as [_ Hx].
  destruct (extract_option_list_shape _ _ _ _ Hx) as [_ (raw & Hraw & Hprob)].
  assert (Hne : normalize raw <> []).
  { intros Hnil. apply (f_equal length) in Hnil.
    rewrite normalize_length, <- (length_mapM _ _ _ Hraw) in Hnil.
    destruct (options question); [congruence|discriminate]. }
  destruct (apply_floor_sums_to_one _ Hne) as [Hsum Hpos].
  rewrite Hprob. split; [exact Hsum|split; [|exact Hpos]].
  apply Qabs_Qle_condition. split.
  - apply (Qplus_le_l _ _ 1). ring_simplify. rewrite Hsum. discriminate.
  - apply (Qplus_le_l _ _ 1). ring_simplify. rewrite Hsum. discriminate.
Qed.

End Facts.

Definition colours : MultipleChoiceQuestion :=
  {| mc_question := rain; options := ["Red"; "Green"; "Blue"] |}.

Definition colours_answer : string :=
  unlines ["Blue looks most likely."; "Blue: 50%"; "Red: 20%"; "Green: 30%"].

(** The same option lines, in the order of the question. *)
Definition colours_in_order : string :=
  unlines ["Red: 20%"; "Green: 30%"; "Blue: 50%"].

Lemma multiple_choice_forecast_keeps_canonical_order_witness :
  exists rp,
    result (_run_forecast_on_multiple_choice (answers colours_answer) id
              "metaculus/openai/o4-mini" "2025-06-01" FailOnMissing (fun _ => "")
              bare_mc_template colours "") = Returned rp
    /\ map option_name (prediction_value rp) = ["Red"; "Green"; "Blue"]
    /\ Forall2 Qeq (map probability (prediction_value rp)) [0.2; 0.3; 0.5]
    /\ extract_option_list_with_percentage_afterwards FailOnMissing colours_in_order
         (options colours) = Returned (prediction_value rp).
Proof.
  eexists. split; [reflexivity|].
  destruct (multiple_choice_forecast_keeps_canonical_order (answers colours_answer) id
              "metaculus/openai/o4-mini" "2025-06-01" FailOnMissing (fun _ => "")
              bare_mc_template colours "" _ eq_refl)
    as (Hnames & _ & _ & _ & Hreorder).
  split; [exact Hnames|]. split; [repeat constructor|].
  apply Hreorder.
  - apply (bool_decide_unpack _). vm_compute. reflexivity.
  - vm_compute. symmetry.
    apply (Permutation_cons_append [("red", 0.20); ("green", 0.30)] ("blue", 0.50)).
Defined.

(** An answer whose percentages add up to 110. *)
Definition colours_overshoot : string :=
  unlines ["Blue: 50%"; "Red: 30%"; "Green: 30%"].

Lemma multiple_choice_forecast_sums_to_one_witness :
  exists rp,
    result (_run_forecast_on_multiple_choice (answers colours_overshoot) id
              "metaculus/openai/o4-mini" "2025-06-01" FloorMissing (fun _ => "")
              bare_mc_template colours "") = Returned rp
    /\ Forall2 Qeq (map probability (prediction_value rp)) [3 # 11; 3 # 11; 5 # 11]
    /\ total (map probability (prediction_value rp)) == 1.
Proof.
  eexists. split; [reflexivity|]. split; [repeat constructor|].
  apply (multiple_choice_forecast_sums_to_one (answers colours_overshoot) id
           "metaculus/openai/o4-mini" "2025-06-01" FloorMissing (fun _ => "")
           bare_mc_template colours ""); [reflexivity|discriminate].
Defined.

End OptionFacts.

(** ** Properties of the numeric forecast *)

Module PercentileFacts.
Import PredictionExtractor Forecaster Samples.
Local Open Scope Q_scope.



(** *** The declared mapping *)




(** *** The repair *)









(** *** Clipping *)



Section Facts.

Variable W : call -> outcome string.
Variable clean_indents : string -> string.
Variable default_llm : string.
Variable today : string.
Variable str_of_float : Q -> string.
Variable str_of_percentiles : list (N * Q) -> string.
Variable numeric_template : NumericQuestion -> string -> string -> string -> string -> string.

Abbreviation forecast :=
  (_run_forecast_on_numeric W clean_indents default_llm today str_of_float
     str_of_percentiles numeric_template).



End Facts.




End PercentileFacts.

(** ** Properties of the concurrency limiter *)

Module LimiterFacts.
Import Research Forecaster Limiter Samples.

(** A program takes a slot only when it holds none and gives one back only
    when it holds one. *)
Fixpoint well_guarded (held : bool) (events : list event) : bool :=
  match events with
  | [] => true
  | EvAcquire :: rest => negb held && well_guarded true rest
  | EvRelease :: rest => held && well_guarded false rest
  | _ :: rest => well_guarded held rest
  end.

Definition limiter_free (events : list event) : bool :=
  forallb (fun ev => match ev with EvAcquire | EvRelease => false | _ => true end) events.

Lemma limiter_free_well_guarded events : forall held,
  limiter_free events = true -> well_guarded held events = true.
Proof.
  induction events as [|ev events IH]; intros held; simpl; [reflexivity|].
  destruct ev; simpl; try discriminate; apply IH.
Qed.

Lemma well_guarded_section body rest :
  limiter_free body = true -> limiter_free rest = true ->
  well_guarded false (EvAcquire :: body ++ EvRelease :: rest) = true.
Proof.
  intros Hbody Hrest. simpl.
  induction body as [|ev body IH]; simpl in *.
  - apply limiter_free_well_guarded, Hrest.
  - destruct ev; simpl in *; try discriminate; apply IH, Hbody.
Qed.

(** *** The invariant of a run *)

Definition next_hold (held : bool) (ev : event) : bool :=
  match ev with
  | EvAcquire => true
  | EvRelease => false
  | _ => held
  end.

Lemma holds_after_snoc events : forall held ev,
  holds_after held (events ++ [ev]) = next_hold (holds_after held events) ev.
Proof.
  induction events as [|e events IH]; intros held ev; simpl.
  - destruct ev; reflexivity.
  - destruct e; apply IH.
Qed.

Definition weight (t : task) : nat := if holding t then 1 else 0.

Lemma holders_weight st : holders st = sum_list (map weight (tasks st)).
Proof. reflexivity. Qed.

(** Replacing one task changes the count by the difference of the weights. *)
Lemma sum_weight_insert (l : list task) : forall i t t',
  l !! i = Some t ->
  sum_list (map weight (<[i := t']> l)) + weight t = sum_list (map weight l) + weight t'.
Proof.
  induction l as [|x l IH]; intros i t t' Hi; [discriminate|].
  destruct i as [|i]; simpl in *.
  - injection Hi as ->. lia.
  - specialize (IH i t t' Hi). lia.
Qed.

(** What is still to come fits what the task holds now. *)
Definition task_ok (t : task) : Prop := well_guarded (holding t) (pending t) = true.

Record invariant (st : state) : Prop := {
  tasks_ok : Forall task_ok (tasks st);
  slots : value st + holders st = _max_concurrent_questions
}.

Lemma proceed_ok t ev rest :
  pending t = ev :: rest -> task_ok t ->
  task_ok (proceed t) /\ holding (proceed t) = next_hold (holding t) ev
  /\ (ev = EvAcquire -> holding t = false)
  /\ (ev = EvRelease -> holding t = true).
Proof.
  unfold task_ok, proceed, holding. intros Hp. rewrite Hp. simpl.
  rewrite holds_after_snoc.
  destruct ev; simpl; intros Hok;
    try (apply andb_true_iff in Hok as [Hheld Hok]);
    repeat split; try assumption; try discriminate; intros _.
  - destruct (holds_after false (finished t)); [discriminate|reflexivity].
  - exact Hheld.
Qed.

Lemma start_invariant programs :
  Forall (fun program => well_guarded false program = true) programs ->
  invariant (start programs).
Proof.
  intros Hall. split; simpl.
  - rewrite Forall_map. eapply Forall_impl; [exact Hall|]. intros program Hp. exact Hp.
  - rewrite holders_weight. simpl.
    assert (sum_list (map weight (map spawn programs)) = 0) as ->; [|reflexivity].
    clear Hall. induction programs as [|program programs IH]; simpl; [reflexivity|exact IH].
Qed.

(** A turn that moves task [i] one event forward. *)
Lemma advance_invariant st i t ev rest value' waiters' :
  invariant st ->
  tasks st !! i = Some t ->
  pending t = ev :: rest ->
  value' + weight (proceed t) = value st + weight t ->
  invariant {| limiter := {| _value := value'; _waiters := waiters' |};
               tasks := <[i := proceed t]> (tasks st) |}.
Proof.
  intros [Hok Hslots] Ht Hp Hvalue.
  pose proof (Forall_lookup_1 _ _ _ _ Hok Ht) as Htask.
  destruct (proceed_ok t ev rest Hp Htask) as (Hnext & _).
  split; simpl.
  - apply Forall_insert; assumption.
  - rewrite holders_weight in *. simpl.
    pose proof (sum_weight_insert (tasks st) i t (proceed t) Ht). lia.
Qed.

Lemma step_invariant i st st' :
  invariant st -> step i st = Some st' -> invariant st'.
Proof.
  intros Hinv. unfold step.
  destruct (tasks st !! i) as [t|] eqn:Ht; [|discriminate].
  destruct (pending t) as [|ev rest] eqn:Hp; [discriminate|].
  pose proof (Forall_lookup_1 _ _ _ _ (tasks_ok st Hinv) Ht) as Htask.
  destruct (proceed_ok t ev rest Hp Htask) as (_ & Hhold & Hacq & Hrel).
  assert (Hw : weight (proceed t) = if next_hold (holding t) ev then 1 else 0)
    by (unfold weight; rewrite Hhold; reflexivity).
  destruct ev.
  - specialize (Hacq eq_refl). simpl in Hw.
    assert (Hw0 : weight t = 0) by (unfold weight; rewrite Hacq; reflexivity).
    destruct (waiters st) as [|first others].
    + destruct (0 <? value st)%nat eqn:Hfree; intros [= <-].
      * apply Nat.ltb_lt in Hfree.
        eapply advance_invariant; eauto. lia.
      * destruct Hinv. split; assumption.
    + destruct (decide (first = i)).
      * destruct (0 <? value st)%nat eqn:Hfree; [|discriminate]. intros [= <-].
        apply Nat.ltb_lt in Hfree.
        eapply advance_invariant; eauto. lia.
      * destruct (decide (i ∈ others)); [discriminate|]. intros [= <-].
        destruct Hinv. split; assumption.
  - specialize (Hrel eq_refl). simpl in Hw.
    assert (Hw1 : weight t = 1) by (unfold weight; rewrite Hrel; reflexivity).
    intros [= <-]. eapply advance_invariant; eauto. lia.
  - simpl in Hw. intros [= <-].
    eapply advance_invariant; eauto; unfold weight in *; lia.
  - simpl in Hw. intros [= <-].
    eapply advance_invariant; eauto; unfold weight in *; lia.
Qed.

Lemma exec_invariant schedule : forall st, invariant st -> invariant (exec schedule st).
Proof.
  induction schedule as [|i schedule IH]; intros st Hinv; simpl; [exact Hinv|].
  apply IH. destruct (step i st) as [st'|] eqn:Hstep; simpl; [|exact Hinv].
  eapply step_invariant; eassumption.
Qed.

(** A turn of one task leaves every other task as it was. *)
Lemma step_frame i j st st' :
  step i st = Some st' -> i <> j -> tasks st' !! j = tasks st !! j.
Proof.
  unfold step. intros Hstep Hne.
  destruct (tasks st !! i) as [t|]; [|discriminate].
  destruct (pending t) as [|ev rest]; [discriminate|].
  destruct ev;
    repeat match type of Hstep with
    | context [match ?x with _ => _ end] => destruct x
    end;
    try discriminate; injection Hstep as <-; simpl;
    try reflexivity; apply list_lookup_insert_ne; exact Hne.
Qed.

(** A slot is taken first come, first served: while tasks wait, only the one
    that has waited longest takes the next slot. *)
Lemma slot_goes_to_longest_waiter i st st' first others :
  step i st = Some st' -> waiters st = first :: others ->
  (value st' < value st)%nat -> i = first /\ waiters st' = others.
Proof.
  unfold step. intros Hstep Hw Hlt. rewrite Hw in Hstep.
  destruct (tasks st !! i) as [t|]; [|discriminate].
  destruct (pending t) as [|ev rest]; [discriminate|].
  destruct ev;
    repeat match type of Hstep with
    | context [match ?x with _ => _ end] => destruct x
    end;
    try discriminate; injection Hstep as <-; simpl in *; try lia; auto.
Qed.

(** *** The programs of the questions *)

Section Programs.

Variable W : call -> outcome string.
Variable clean_indents : string -> string.
Variable environ : gmap string string.
Variable default_llm : string.
Variable today : string.
Variable str_of_float : Q -> string.
Variable policy : PredictionExtractor.missing_option_policy.
Variable str_of_option_list : PredictionExtractor.PredictedOptionList -> string.
Variable str_of_percentiles : list (N * Q) -> string.
Variable binary_template : MetaculusQuestion -> string -> string -> string.
Variable multiple_choice_template : MultipleChoiceQuestion -> string -> string -> string.
Variable numeric_template : NumericQuestion -> string -> string -> string -> string -> string.

Abbreviation program :=
  (fun question => trace (forecast_question W clean_indents environ default_llm today
      str_of_float policy str_of_option_list str_of_percentiles binary_template
      multiple_choice_template numeric_template question)).

Ltac run_monad :=
  unfold Research.await, lift, logger, mbind, M_bind, bind, mret, M_ret, ret,
    async_with, trace, result.

(** [run_research] is one guarded section: it takes the slot first, gives it
    back last, and touches the limiter nowhere in between. *)
Lemma run_research_guarded question :
  exists body,
    trace (run_research W clean_indents environ question) = EvAcquire :: body ++ [EvRelease]
    /\ limiter_free body = true.
Proof.
  unfold run_research.
  match goal with
  | |- context [async_with ?m] =>
      exists (trace m); split; [destruct m as [r tr]; reflexivity|]
  end.
  unfold _call_exa_smart_searcher, _call_perplexity. run_monad.
  repeat match goal with |- context [if ?b then _ else _] => destruct b end;
    try (match goal with |- context [W ?c] => destruct (W c) end);
    reflexivity.
Qed.

(** The three forecast functions never touch the limiter. *)
Lemma run_forecast_on_binary_unguarded question research :
  limiter_free (trace (_run_forecast_on_binary W clean_indents default_llm today str_of_float
                      binary_template question research)) = true.
Proof.
  unfold _run_forecast_on_binary. run_monad.
  destruct (W _) as [text|e]; simpl; [|reflexivity].
  destruct (PredictionExtractor.extract_last_percentage_value text 1 0); reflexivity.
Qed.

Lemma run_forecast_on_multiple_choice_unguarded question research :
  limiter_free (trace (_run_forecast_on_multiple_choice W clean_indents default_llm today policy
                      str_of_option_list multiple_choice_template question research)) = true.
Proof.
  unfold _run_forecast_on_multiple_choice. run_monad.
  destruct (W _) as [text|e]; simpl; [|reflexivity].
  destruct (PredictionExtractor.extract_option_list_with_percentage_afterwards _ _ _);
    reflexivity.
Qed.

Lemma run_forecast_on_numeric_unguarded question research :
  limiter_free (trace (_run_forecast_on_numeric W clean_indents default_llm today str_of_float
                      str_of_percentiles numeric_template question research)) = true.
Proof.
  unfold _run_forecast_on_numeric. run_monad.
  destruct (W _) as [text|e]; simpl; [|reflexivity].
  destruct (PredictionExtractor.extract_numeric_distribution_from_list_of_percentile_number_and_probability _ _);
    reflexivity.
Qed.

(** Dropping the value of a computation keeps its events. *)
Lemma trace_discard {A} (m : M A) : trace (m ;; mret tt) = trace m.
Proof.
  destruct m as [[a|e] tr]; run_monad; simpl; [apply app_nil_r|reflexivity].
Qed.

(** The events of a bind: those of the first computation, then those of the
    continuation on its value. *)
Lemma trace_bind {A B} (m : M A) (k : A -> M B) :
  trace (x ← m; k x)
  = trace m ++ match result m with Returned a => trace (k a) | Raised _ => [] end.
Proof.
  destruct m as [[a|e] tr]; run_monad; simpl.
  - destruct (k a) as [r tr']. reflexivity.
  - symmetry. apply app_nil_r.
Qed.

Lemma run_forecast_unguarded question research :
  limiter_free (trace (run_forecast W clean_indents default_llm today str_of_float policy
                         str_of_option_list str_of_percentiles binary_template
                         multiple_choice_template numeric_template question research)) = true.
Proof.
  destruct question as [q|q|q]; unfold run_forecast; rewrite trace_discard.
  - apply run_forecast_on_binary_unguarded.
  - apply run_forecast_on_multiple_choice_unguarded.
  - apply run_forecast_on_numeric_unguarded.
Qed.

(** The events of a question: the guarded section, which is the research of
    [run_research], then the forecast, outside of it. *)
Lemma program_shape question :
  exists body after,
    trace (run_research W clean_indents environ (common question))
    = EvAcquire :: body ++ [EvRelease]
    /\ program question = EvAcquire :: body ++ EvRelease :: after
    /\ limiter_free body = true
    /\ limiter_free after = true.
Proof.
  destruct (run_research_guarded (common question)) as (body & Htrace & Hbody).
  exists body.
  unfold forecast_question. rewrite trace_bind, Htrace.
  destruct (result (run_research W clean_indents environ (common question))) as [research|e].
  - eexists. split; [reflexivity|]. split; [|split; [exact Hbody|]].
    + rewrite <- app_comm_cons, <- app_assoc. reflexivity.
    + apply run_forecast_unguarded.
  - exists []. split; [reflexivity|]. split; [|split; [exact Hbody|reflexivity]].
    rewrite app_nil_r. reflexivity.
Qed.

Lemma program_well_guarded question : well_guarded false (program question) = true.
Proof.
  destruct (program_shape question) as (body & after & _ & -> & Hbody & Hafter).
  apply (well_guarded_section body after Hbody Hafter).
Qed.

(** [run_research] takes the slot of the limiter once, as its first event,
    and gives it back once, as its last event, whether the provider answered
    or raised: its events are one acquire, a body in which no event is an
    acquire or a release, and one release. *)
Theorem run_research_releases_the_slot question :
  head (trace (run_research W clean_indents environ question)) = Some EvAcquire
  /\ last (trace (run_research W clean_indents environ question)) = Some EvRelease
  /\ holds_after false (trace (run_research W clean_indents environ question)) = false
  /\ well_guarded false (trace (run_research W clean_indents environ question)) = true
  /\ (exists body,
        trace (run_research W clean_indents environ question)
        = EvAcquire :: body ++ [EvRelease]
        /\ limiter_free body = true
        /\ Forall (fun ev => ev <> EvAcquire /\ ev <> EvRelease) body).
Proof.
  destruct (run_research_guarded question) as (body & -> & Hfree).
  split; [reflexivity|]. split; [|split; [|split]].
  - rewrite app_comm_cons. apply last_snoc.
  - change (EvAcquire :: body ++ [EvRelease]) with ((EvAcquire :: body) ++ [EvRelease]).
    apply holds_after_snoc.
  - apply (well_guarded_section body [] Hfree eq_refl).
  - exists body. split; [reflexivity|split; [exact Hfree|]].
    unfold limiter_free in Hfree. rewrite forallb_forall in Hfree.
    apply Forall_forall. intros ev Hin.
    apply list_elem_of_In, Hfree in Hin.
    destruct ev; try discriminate; split; discriminate.
Qed.

(** None of the three forecast functions acquires or releases the limiter. *)
Theorem forecast_functions_leave_the_limiter_alone
    (binary : MetaculusQuestion) (choice : MultipleChoiceQuestion) (numeric : NumericQuestion)
    (research : string) :
  limiter_free (trace (_run_forecast_on_binary W clean_indents default_llm today str_of_float
                      binary_template binary research)) = true
  /\ limiter_free (trace (_run_forecast_on_multiple_choice W clean_indents default_llm today
                         policy str_of_option_list multiple_choice_template choice research))
     = true
  /\ limiter_free (trace (_run_forecast_on_numeric W clean_indents default_llm today str_of_float
                         str_of_percentiles numeric_template numeric research)) = true.
Proof.
  split; [apply run_forecast_on_binary_unguarded|split].
  - apply run_forecast_on_multiple_choice_unguarded.
  - apply run_forecast_on_numeric_unguarded.
Qed.

(** C8, as the code has it: at every moment of a run at most 2 questions,
    the capacity of the semaphore, are inside the section the semaphore
    guards; the free slots and the questions inside always add up to 2.  That
    section is the research of [run_research]: every question gives its slot
    back at the end of its research and makes its forecast without one.  A
    turn of one question task changes no other task. *)
Theorem at_most_two_questions_hold_the_limiter (questions : list question)
    (schedule : list nat) :
  let st := exec schedule (start (map program questions)) in
  holders st <= _max_concurrent_questions
  /\ value st + holders st = _max_concurrent_questions
  /\ (forall question, exists body after,
        trace (run_research W clean_indents environ (common question))
        = EvAcquire :: body ++ [EvRelease]
        /\ program question = EvAcquire :: body ++ EvRelease :: after
        /\ limiter_free body = true /\ limiter_free after = true)
  /\ (forall i j, i <> j -> tasks (exec [i] st) !! j = tasks st !! j).
Proof.
  intros st.
  assert (Hinv : invariant st).
  { apply exec_invariant, start_invariant.
    rewrite Forall_map. apply Forall_forall. intros question _.
    apply program_well_guarded. }
  destruct Hinv as [_ Hslots].
  split; [lia|split; [exact Hslots|split; [exact program_shape|]]].
  intros i j Hne. simpl.
  destruct (step i st) as [st'|] eqn:Hstep; simpl; [|reflexivity].
  eapply step_frame; eassumption.
Qed.

End Programs.

(** Three questions of a run, each with the model answering a forecast. *)
Definition three_programs : list (list event) :=
  map (fun question =>
         trace (forecast_question (answers "Probability: 40%") id asknews_and_exa
                  "metaculus/openai/o4-mini" "2025-06-01" print_float
                  PredictionExtractor.FailOnMissing (fun _ => "") (fun _ => "")
                  bare_template bare_mc_template bare_numeric_template question))
      [Binary rain; Binary rain; Binary rain].

(** Each question in turn does its research and asks the model for its
    forecast. *)
Definition one_after_another : list nat :=
  [0; 0; 0; 0; 0; 1; 1; 1; 1; 1; 2; 2; 2; 2; 2].

(** The bound is reached: two questions hold a slot while the third waits,
    and its further turns change nothing until a slot is given back. *)
Example two_research_one_waits :
  holders (exec [0; 1; 2; 2; 2] (start three_programs)) = 2
  /\ value (exec [0; 1; 2; 2; 2] (start three_programs)) = 0
  /\ waiters (exec [0; 1; 2; 2; 2] (start three_programs)) = [2]
  /\ exec [0; 1; 2; 2; 2] (start three_programs) = exec [0; 1; 2] (start three_programs).
Proof. repeat split; reflexivity. Qed.

(** Counterexample to C8 as the specification states it: three questions are
    between the start of their research and the end of their forecast at the
    same moment, none of them holding a slot. *)
Lemma three_questions_in_flight :
  questions_in_flight (exec one_after_another (start three_programs)) = 3
  /\ holders (exec one_after_another (start three_programs)) = 0
  /\ map (fun t => length (pending t)) (tasks (exec one_after_another (start three_programs)))
     = [1; 1; 1].
Proof. repeat split; reflexivity. Qed.

End LimiterFacts.

(** ** The extractors on the specification's test inputs *)

Module ExtractorExamples.
Import PredictionExtractor Samples.
Local Open Scope Q_scope.

Definition closed_above : NumericQuestion :=
  {| numeric_question := rain;
     upper_bound := 100; lower_bound := 0;
     open_upper_bound := false; open_lower_bound := true;
     unit_of_measure := None |}.

Definition open_above : NumericQuestion :=
  {| numeric_question := rain;
     upper_bound := 100; lower_bound := 0;
     open_upper_bound := true; open_lower_bound := true;
     unit_of_measure := None |}.

(** Section 8, end to end: an answer ending in [Probability: 37%]. *)
Example binary_answer_37 :
  binary_forecast_on (unlines ["...analysis..."; "Probability: 37%"])
  = Returned {| prediction_value := 0.37;
                reasoning := unlines ["...analysis..."; "Probability: 37%"] |}.
Proof. reflexivity. Qed.

(** A text without any percentage is an [ExtractionError]. *)
Example no_percentage_is_an_error :
  extract_last_percentage_value "I would rather not say." 1 0
  = Raised (ExtractionError "no percentage found in the text").
Proof. reflexivity. Qed.

(** P6: a single percentile line is below the minimum number of points. *)
Example one_percentile_is_an_error :
  extract_numeric_distribution_from_list_of_percentile_number_and_probability
    "Percentile 50: 12" open_above
  = Raised (ExtractionError "fewer than two percentiles found in the text").
Proof. reflexivity. Qed.

(** P7: a value above a closed upper bound is clipped to it; an open upper
    bound lets it through. *)
Example value_above_the_upper_bound :
  clip_to_bounds closed_above 150 = 100 /\ clip_to_bounds open_above 150 = 150.
Proof. split; reflexivity. Qed.

(** Malformed numbers are skipped and thousands separators are dropped. *)
Example permissive_numbers :
  omap parse_percentile_line
    (lines (unlines ["Percentile 10: 1,250"; "Percentile 20: 1e5"; "Percentile 40: -3.5"]))
  = [(10%N, 1250 # 1); (40%N, Qopp (35 # 10))].
Proof. reflexivity. Qed.

(** P8: with the strict policy an option missing from the text is an error;
    with the lenient one it gets the floor before the rescaling. *)
Example missing_option_by_policy :
  extract_option_list_with_percentage_afterwards FailOnMissing
    (unlines ["Red: 40%"; "Green: 60%"]) ["Red"; "Green"; "Blue"]
  = Raised (ExtractionError "an option has no probability in the text")
  /\ exists prediction,
       extract_option_list_with_percentage_afterwards FloorMissing
         (unlines ["Red: 40%"; "Green: 60%"]) ["Red"; "Green"; "Blue"]
       = Returned prediction
       /\ map option_name prediction = ["Red"; "Green"; "Blue"].
Proof. split; [reflexivity|]. eexists. split; reflexivity. Qed.

End ExtractorExamples.

(** ** Further properties of the research dispatch *)

Module ResearchMore.
Import Research Samples.

(** The environment variables [run_research] looks at. *)
Definition credential_keys : list string :=
  ["ASKNEWS_CLIENT_ID"; "ASKNEWS_SECRET"; "EXA_API_KEY"; "PERPLEXITY_API_KEY";
   "OPENROUTER_API_KEY"].

(** The messages logged at INFO level, in order. *)
Definition infos (tr : list event) : list string :=
  omap (fun ev => match ev with EvLog INFO msg => Some msg | _ => None end) tr.

Section Facts.

Variable W : call -> outcome string.
Variable clean_indents : string -> string.

Ltac run_cases environ :=
  unfold run_research, _call_exa_smart_searcher, _call_perplexity, await, mbind, M_bind,
    bind, async_with, logger, mret, M_ret, ret, result, trace;
  destruct (truthy (getenv environ "ASKNEWS_CLIENT_ID") && truthy (getenv environ "ASKNEWS_SECRET"));
  [|destruct (truthy (getenv environ "EXA_API_KEY"));
    [|destruct (truthy (getenv environ "PERPLEXITY_API_KEY"));
      [|destruct (truthy (getenv environ "OPENROUTER_API_KEY"))]]];
  try (match goal with |- context [W ?c] => destruct (W c) end); simpl.

(** Which call [run_research] awaits is decided by the presence of the five
    credential variables and by the text of the question alone: in two runs
    whose environments agree on which of the five are set, on questions with
    the same text, the same call is awaited with the same argument, whatever
    the outside services answer in either run (their answers are free to
    depend on the values of the credentials); with the same URL too, the
    same warning is logged. *)
Theorem run_research_call_depends_on_presence_only
    (W1 W2 : call -> outcome string) environ1 environ2 question1 question2 :
  Forall (fun key => truthy (getenv environ1 key) = truthy (getenv environ2 key))
         credential_keys ->
  question_text question1 = question_text question2 ->
  calls (trace (run_research W1 clean_indents environ1 question1))
  = calls (trace (run_research W2 clean_indents environ2 question2))
  /\ (page_url question1 = page_url question2 ->
      warnings (trace (run_research W1 clean_indents environ1 question1))
      = warnings (trace (run_research W2 clean_indents environ2 question2))).
Proof.
  intros Hkeys Htext. unfold credential_keys in Hkeys.
  repeat match goal with
  | H : Forall _ (_ :: _) |- _ => apply Forall_cons in H as [? H]
  end.
  unfold run_research.
  repeat match goal with
  | H : truthy _ = truthy _ |- _ => rewrite H; clear H
  end.
  rewrite Htext.
  unfold _call_exa_smart_searcher, _call_perplexity, await, mbind, M_bind,
    bind, async_with, logger, mret, M_ret, ret, result, trace.
  destruct (truthy (getenv environ2 "ASKNEWS_CLIENT_ID")
            && truthy (getenv environ2 "ASKNEWS_SECRET"));
  [|destruct (truthy (getenv environ2 "EXA_API_KEY"));
    [|destruct (truthy (getenv environ2 "PERPLEXITY_API_KEY"));
      [|destruct (truthy (getenv environ2 "OPENROUTER_API_KEY"))]]];
  try (match goal with |- context [W1 ?c] => destruct (W1 c), (W2 c) end);
  (split; [reflexivity|]); try reflexivity.
  intros ->. reflexivity.
Qed.

(** The log of [run_research] agrees with its result: when it returns a
    text, that text is logged once at INFO level under the URL of the
    question; when the provider raises, nothing at all is logged. *)
Theorem run_research_logs_what_it_returns environ question :
  match result (run_research W clean_indents environ question) with
  | Returned research =>
      infos (trace (run_research W clean_indents environ question))
      = ["Found Research for URL " +:+ page_url question +:+ ":" +:+ nl +:+ research]
  | Raised _ =>
      infos (trace (run_research W clean_indents environ question)) = []
      /\ warnings (trace (run_research W clean_indents environ question)) = []
  end.
Proof. run_cases environ; auto. Qed.

(** The Exa helper makes one call to the smart searcher and returns or
    raises what that call does; its prompt ends with the question, so two
    different questions are never asked with the same prompt. *)
Theorem exa_searcher_prompt_carries_question question1 question2 :
  (exists lead,
     calls (trace (_call_exa_smart_searcher W question1))
     = [SmartSearcherInvoke (lead +:+ "The question is: " +:+ question1)]
     /\ result (_call_exa_smart_searcher W question1)
        = W (SmartSearcherInvoke (lead +:+ "The question is: " +:+ question1)))
  /\ (calls (trace (_call_exa_smart_searcher W question1))
      = calls (trace (_call_exa_smart_searcher W question2)) ->
      question1 = question2).
Proof.
  unfold _call_exa_smart_searcher, await, mbind, M_bind, bind, mret, M_ret, ret,
    result, trace.
  split.
  - match goal with
    | |- context [SmartSearcherInvoke (?a +:+ ?b +:+ ?c +:+ ?d +:+ nl +:+ nl +:+ _)] =>
        exists (a +:+ b +:+ c +:+ d +:+ nl +:+ nl)
    end.
    split; (destruct (W _); reflexivity).
  - do 2 (destruct (W _); simpl); intros [= Heq];
      repeat (apply (inj (String.app _)) in Heq); exact Heq.
Qed.

End Facts.

Definition rotated_secrets : gmap string string :=
  {[ "ASKNEWS_CLIENT_ID" := "another id"; "ASKNEWS_SECRET" := "another secret";
     "EXA_API_KEY" := "another key"; "HOME" := "/root" ]}.

Definition rain_with_background : MetaculusQuestion :=
  {| question_text := "Will it rain tomorrow?";
     page_url := "https://www.metaculus.com/questions/1/";
     background_info := "It rained yesterday.";
     resolution_criteria := "Rain gauge at the airport."; fine_print := "" |}.

Lemma run_research_call_depends_on_presence_only_witness :
  calls (trace (run_research asknews_down id asknews_and_exa rain))
  = calls (trace (run_research (answers "Rain is likely.") id rotated_secrets
                    rain_with_background))
  /\ calls (trace (run_research asknews_down id asknews_and_exa rain))
     = [AskNewsGetFormattedNews "Will it rain tomorrow?"].
Proof.
  split; [|reflexivity].
  apply (run_research_call_depends_on_presence_only id asknews_down
           (answers "Rain is likely.") asknews_and_exa rotated_secrets rain rain_with_background);
    [repeat constructor|reflexivity].
Defined.

End ResearchMore.

(** ** Further properties of the forecast functions *)

Module ForecastMore.
Import Research Forecaster Samples ResearchMore.

Section Facts.

Variable W : call -> outcome string.
Variable clean_indents : string -> string.
Variable default_llm : string.
Variable today : string.
Variable str_of_float : Q -> string.
Variable policy : PredictionExtractor.missing_option_policy.
Variable str_of_option_list : PredictionExtractor.PredictedOptionList -> string.
Variable str_of_percentiles : list (N * Q) -> string.
Variable binary_template : MetaculusQuestion -> string -> string -> string.
Variable multiple_choice_template : MultipleChoiceQuestion -> string -> string -> string.
Variable numeric_template : NumericQuestion -> string -> string -> string -> string -> string.

(** What the three forecast functions have in common: one awaited call, an
    extraction of its answer, one log record, the wrapped prediction. *)
Definition ask_then_extract {T} (c : call) (extract : string -> outcome T)
    (describe : T -> string -> string) : M (ReasonedPrediction T) :=
  reasoning ← await W c;
  prediction ← lift (extract reasoning);
  logger INFO (describe prediction reasoning);;
  mret {| prediction_value := prediction; reasoning := reasoning |}.

(** A forecast is faithful to its model call [c] and its extractor: it makes
    that call and no other; when it returns, the reasoning is the answer of
    the call, the prediction is what the extractor made of it, and one record
    is logged; when it raises, the exception is the one of the call or of the
    extractor and nothing is logged. *)
Definition faithful {T} (forecast : M (ReasonedPrediction T)) (c : call)
    (extract : string -> outcome T) : Prop :=
  calls (trace forecast) = [c]
  /\ match result forecast with
     | Returned rp =>
         W c = Returned (reasoning rp)
         /\ extract (reasoning rp) = Returned (prediction_value rp)
         /\ length (infos (trace forecast)) = 1
     | Raised e =>
         infos (trace forecast) = []
         /\ (W c = Raised e
             \/ exists text, W c = Returned text /\ extract text = Raised e)
     end.

Lemma ask_then_extract_faithful {T} (c : call) (extract : string -> outcome T)
    (describe : T -> string -> string) :
  faithful (ask_then_extract c extract describe) c extract.
Proof.
  unfold faithful, ask_then_extract, await, lift, logger, mbind, M_bind, bind,
    mret, M_ret, ret, result, trace.
  destruct (W c) as [text|e] eqn:HW; simpl.
  - destruct (extract text) as [prediction|e] eqn:Hx; simpl.
    + auto.
    + split; [reflexivity|]. split; [reflexivity|]. right. exists text. auto.
  - auto.
Qed.

(** Each of the three forecast functions asks the default model exactly
    once, with its prompt, and is faithful to that call and to its extractor:
    the answer is returned unchanged as the reasoning, an exception of the
    call or of the extractor is raised unchanged, and no prediction is ever
    put in the place of a failure. *)
Theorem forecast_functions_are_faithful
    (binary : MetaculusQuestion) (choice : MultipleChoiceQuestion) (numeric : NumericQuestion)
    (research : string) :
  faithful
    (_run_forecast_on_binary W clean_indents default_llm today str_of_float
       binary_template binary research)
    (GeneralLlmInvoke default_llm (clean_indents (binary_template binary research today)))
    (fun text => PredictionExtractor.extract_last_percentage_value text 1 0)
  /\ faithful
       (_run_forecast_on_multiple_choice W clean_indents default_llm today policy
          str_of_option_list multiple_choice_template choice research)
       (GeneralLlmInvoke default_llm
          (clean_indents (multiple_choice_template choice research today)))
       (fun text => PredictionExtractor.extract_option_list_with_percentage_afterwards
                      policy text (options choice))
  /\ faithful
       (_run_forecast_on_numeric W clean_indents default_llm today str_of_float
          str_of_percentiles numeric_template numeric research)
       (GeneralLlmInvoke default_llm
          (numeric_prompt clean_indents today str_of_float numeric_template numeric research))
       (fun text =>
          PredictionExtractor.extract_numeric_distribution_from_list_of_percentile_number_and_probability
            text numeric).
Proof.
  split; [|split].
  - exact (ask_then_extract_faithful _ _
             (fun prediction reasoning =>
                "Forecasted URL " +:+ page_url binary +:+ " as " +:+ str_of_float prediction
                +:+ " with reasoning:" +:+ nl +:+ reasoning)).
  - exact (ask_then_extract_faithful _ _
             (fun prediction reasoning =>
                "Forecasted URL " +:+ page_url choice +:+ " as "
                +:+ str_of_option_list prediction
                +:+ " with reasoning:" +:+ nl +:+ reasoning)).
  - exact (ask_then_extract_faithful _ _
             (fun prediction reasoning =>
                "Forecasted URL " +:+ page_url numeric +:+ " as "
                +:+ str_of_percentiles (PredictionExtractor.declared_percentiles prediction)
                +:+ " with reasoning:" +:+ nl +:+ reasoning)).
Qed.

End Facts.

End ForecastMore.

(** ** Progress of a run under the limiter *)

Module LimiterProgress.
Import Research Forecaster Limiter Samples LimiterFacts.

(** A task gives back, by its end, the slot it holds now. *)
Definition ends_released (t : task) : Prop :=
  holds_after (holding t) (pending t) = false.

(** Task [w] is about to take a slot. *)
Definition waits_for_slot (ts : list task) (w : nat) : Prop :=
  exists t, ts !! w = Some t /\ head (pending t) = Some EvAcquire.

(** What holds of every state of a run, beyond the count of the slots: every
    task gives its slot back, and the queue lists, once each, tasks that are
    about to take a slot. *)
Record sound (st : state) : Prop := {
  sound_slots : invariant st;
  sound_released : Forall ends_released (tasks st);
  sound_queue : Forall (waits_for_slot (tasks st)) (waiters st);
  sound_once : NoDup (waiters st)
}.

Definition done (t : task) : Prop := pending t = [].

Definition unfinished (st : state) : Prop :=
  exists i t, tasks st !! i = Some t /\ pending t <> [].

(** Task [j] performs its next event. *)
Definition can_move (st : state) (j : nat) : Prop :=
  exists t st', tasks st !! j = Some t /\ pending t <> []
                /\ step j st = Some st' /\ tasks st' = <[j := proceed t]> (tasks st).

(** The events still to come, over all tasks. *)
Definition remaining (st : state) : nat :=
  sum_list (map (fun t => length (pending t)) (tasks st)).

Lemma holds_after_app first : forall held second,
  holds_after held (first ++ second) = holds_after (holds_after held first) second.
Proof.
  induction first as [|ev first IH]; intros held second; simpl; [reflexivity|].
  destruct ev; apply IH.
Qed.

Lemma limiter_free_holds events : forall held,
  limiter_free events = true -> holds_after held events = held.
Proof.
  induction events as [|ev events IH]; intros held; simpl; [reflexivity|].
  destruct ev; simpl; try discriminate; apply IH.
Qed.

Lemma proceed_released t ev rest :
  pending t = ev :: rest -> ends_released t -> ends_released (proceed t).
Proof.
  unfold ends_released, proceed, holding. intros Hp. rewrite Hp. simpl.
  rewrite holds_after_snoc. destruct ev; simpl; auto.
Qed.

Lemma sum_insert (f : task -> nat) (l : list task) : forall i t t',
  l !! i = Some t ->
  sum_list (map f (<[i := t']> l)) + f t = sum_list (map f l) + f t'.
Proof.
  induction l as [|x l IH]; intros i t t' Hi; [discriminate|].
  destruct i as [|i]; simpl in *.
  - injection Hi as ->. lia.
  - specialize (IH i t t' Hi). lia.
Qed.

(** Moving a task that is not in the queue leaves the queue about to take a
    slot. *)
Lemma queue_after_move ts i t' ws :
  Forall (waits_for_slot ts) ws -> i ∉ ws ->
  Forall (waits_for_slot (<[i := t']> ts)) ws.
Proof.
  rewrite !Forall_forall. intros Hq Hi w Hw.
  destruct (Hq w Hw) as (t & Ht & Hhead). exists t. split; [|exact Hhead].
  rewrite list_lookup_insert_ne; [exact Ht|]. intros ->. contradiction.
Qed.

(** A task whose next event is not [EvAcquire] is not in the queue. *)
Lemma mover_not_waiting ts ws i t ev rest :
  Forall (waits_for_slot ts) ws ->
  ts !! i = Some t -> pending t = ev :: rest -> ev <> EvAcquire -> i ∉ ws.
Proof.
  rewrite Forall_forall. intros Hq Ht Hp Hev Hi.
  destruct (Hq i Hi) as (t' & Ht' & Hhead).
  rewrite Ht in Ht'. injection Ht' as <-. rewrite Hp in Hhead. simpl in Hhead.
  congruence.
Qed.

Lemma step_sound i st st' : sound st -> step i st = Some st' -> sound st'.
Proof.
  intros [Hinv Hrel Hq Hnd] Hstep.
  pose proof (step_invariant i st st' Hinv Hstep) as Hinv'.
  unfold step in Hstep.
  destruct (tasks st !! i) as [t|] eqn:Ht; [|discriminate].
  destruct (pending t) as [|ev rest] eqn:Hp; [discriminate|].
  pose proof (Forall_lookup_1 _ _ _ _ Hrel Ht) as Hrt.
  pose proof (proceed_released t ev rest Hp Hrt) as Hrt'.
  assert (Hmoved : forall ws, i ∉ ws -> Forall (waits_for_slot (tasks st)) ws ->
            Forall (waits_for_slot (<[i := proceed t]> (tasks st))) ws)
    by (intros ws Hi Hws; apply queue_after_move; assumption).
  assert (Hself : waits_for_slot (tasks st) i \/ ev <> EvAcquire).
  { destruct ev; try (right; discriminate). left. exists t. rewrite Hp. auto. }
  cbv zeta in Hstep.
  destruct ev.
  - destruct Hself as [Hself|Hne]; [|congruence].
    destruct (waiters st) as [|first others] eqn:Hw.
    + destruct (0 <? value st)%nat; injection Hstep as <-;
        split; simpl; auto using Forall_insert, NoDup_nil_2, NoDup_singleton.
    + apply NoDup_cons in Hnd as [Hfirst Hnd].
      apply Forall_cons in Hq as [Hqf Hqo].
      destruct (decide (first = i)) as [->|Hne].
      * destruct (0 <? value st)%nat; [|discriminate]. injection Hstep as <-.
        split; simpl; auto using Forall_insert.
      * destruct (decide (i ∈ others)) as [|Hout]; [discriminate|]. injection Hstep as <-.
        split; simpl; auto.
        -- constructor; [assumption|]. apply Forall_app_2; [assumption|].
           constructor; auto.
        -- change (first :: others ++ [i]) with ((first :: others) ++ [i]).
           apply NoDup_app. split; [constructor; assumption|]. split.
           ++ intros x Hx Hxi. apply list_elem_of_singleton in Hxi as ->.
              apply elem_of_cons in Hx as [->|Hx]; contradiction.
           ++ apply NoDup_singleton.
  - assert (i ∉ waiters st)
      by (eapply mover_not_waiting; eauto; discriminate).
    injection Hstep as <-. split; simpl; auto using Forall_insert.
  - assert (i ∉ waiters st)
      by (eapply mover_not_waiting; eauto; discriminate).
    injection Hstep as <-. split; simpl; auto using Forall_insert.
  - assert (i ∉ waiters st)
      by (eapply mover_not_waiting; eauto; discriminate).
    injection Hstep as <-. split; simpl; auto using Forall_insert.
Qed.

Lemma exec_sound schedule : forall st, sound st -> sound (exec schedule st).
Proof.
  induction schedule as [|i schedule IH]; intros st Hs; simpl; [exact Hs|].
  apply IH. destruct (step i st) as [st'|] eqn:Hstep; simpl; [|exact Hs].
  eapply step_sound; eassumption.
Qed.

Lemma exec_app first : forall second st,
  exec (first ++ second) st = exec second (exec first st).
Proof.
  induction first as [|i first IH]; intros second st; simpl; [reflexivity|apply IH].
Qed.

Lemma start_sound programs :
  Forall (fun program => well_guarded false program = true) programs ->
  Forall (fun program => holds_after false program = false) programs ->
  sound (start programs).
Proof.
  intros Hguard Hrel. split; simpl.
  - apply start_invariant, Hguard.
  - rewrite Forall_map. eapply Forall_impl; [exact Hrel|]. intros program Hp. exact Hp.
  - constructor.
  - constructor.
Qed.

(** Some task holds a slot when the count of the holders is not zero. *)
Lemma holder_exists (ts : list task) :
  sum_list (map weight ts) <> 0 -> exists i t, ts !! i = Some t /\ holding t = true.
Proof.
  induction ts as [|t ts IH]; simpl; [congruence|].
  unfold weight at 1. destruct (holding t) eqn:Hh.
  - intros _. exists 0, t. auto.
  - simpl. intros Hsum. destruct (IH Hsum) as (i & t' & Hi & Hh').
    exists (S i), t'. auto.
Qed.

(** No deadlock: in a sound state with an unfinished task, some task
    performs its next event. *)
Lemma sound_progress st : sound st -> unfinished st -> exists j, can_move st j.
Proof.
  intros [[Hok Hslots] Hrel Hq Hnd] (i & t & Ht & Hp).
  rewrite holders_weight in Hslots.
  destruct (Nat.eq_dec (sum_list (map weight (tasks st))) 0) as [Hnone|Hsome].
  - assert (Hfree : (0 <? value st)%nat = true).
    { apply Nat.ltb_lt. unfold _max_concurrent_questions in Hslots. lia. }
    destruct (waiters st) as [|first others] eqn:Hw.
    + exists i, t. destruct (pending t) as [|ev rest] eqn:Hpt; [congruence|].
      unfold step. rewrite Ht, Hpt, Hw. cbv zeta.
      destruct ev; [rewrite Hfree|..]; eexists; (split; [reflexivity|]);
        (split; [discriminate|]); split; reflexivity.
    + apply Forall_cons in Hq as [(t1 & Ht1 & Hhead) _].
      exists first, t1. destruct (pending t1) as [|ev rest] eqn:Hpt; [discriminate|].
      injection Hhead as ->.
      unfold step. rewrite Ht1, Hpt, Hw. cbv zeta.
      destruct (decide (first = first)) as [_|]; [|congruence]. rewrite Hfree.
      eexists. split; [reflexivity|]. split; [discriminate|]. split; reflexivity.
  - destruct (holder_exists _ Hsome) as (j & tj & Hj & Hhold).
    pose proof (Forall_lookup_1 _ _ _ _ Hok Hj) as Hguard.
    pose proof (Forall_lookup_1 _ _ _ _ Hrel Hj) as Hends.
    unfold task_ok in Hguard. unfold ends_released in Hends.
    rewrite Hhold in Hguard, Hends.
    exists j, tj. destruct (pending tj) as [|ev rest] eqn:Hpt; [discriminate|].
    unfold step. rewrite Hj, Hpt. cbv zeta.
    destruct ev; [discriminate|..]; eexists; (split; [reflexivity|]);
      (split; [discriminate|]); split; reflexivity.
Qed.

Lemma remaining_unfinished st : remaining st <> 0 -> unfinished st.
Proof.
  unfold remaining, unfinished. induction (tasks st) as [|t ts IH]; simpl; [congruence|].
  destruct (pending t) as [|ev rest] eqn:Hp; simpl.
  - intros Hsum. destruct (IH Hsum) as (i & t' & Hi & Hp'). exists (S i), t'. auto.
  - intros _. exists 0, t. rewrite Hp. split; [reflexivity|discriminate].
Qed.

Lemma remaining_done st : remaining st = 0 -> Forall done (tasks st).
Proof.
  unfold remaining, done. induction (tasks st) as [|t ts IH]; simpl; [constructor|].
  intros Hsum. constructor; [|apply IH; lia].
  destruct (pending t); [reflexivity|simpl in Hsum; lia].
Qed.

(** From a sound state the run can be completed. *)
Lemma sound_completion n : forall st,
  sound st -> remaining st = n -> exists rest, Forall done (tasks (exec rest st)).
Proof.
  induction n as [|n IH]; intros st Hs Hn.
  - exists []. apply remaining_done, Hn.
  - destruct (sound_progress st Hs) as (j & t & st' & Ht & Hp & Hstep & Htasks).
    { apply remaining_unfinished. lia. }
    destruct (IH st') as (rest & Hdone).
    + eapply step_sound; eassumption.
    + unfold remaining in *. rewrite Htasks.
      pose proof (sum_insert (fun t => length (pending t)) (tasks st) j t (proceed t) Ht) as Hsum.
      unfold proceed in Hsum at 2. destruct (pending t) as [|ev rest]; [congruence|].
      simpl in Hsum. lia.
    + exists (j :: rest). simpl. rewrite Hstep. exact Hdone.
Qed.

(** When every task is done, the limiter is as it was created. *)
Lemma sound_done_free st :
  sound st -> Forall done (tasks st) -> limiter st = _concurrency_limiter.
Proof.
  intros [[_ Hslots] Hrel Hq _] Hdone.
  assert (Hnone : sum_list (map weight (tasks st)) = 0).
  { clear Hslots Hq. induction (tasks st) as [|t ts IH]; simpl; [reflexivity|].
    apply Forall_cons in Hrel as [Ht Hrel]. apply Forall_cons in Hdone as [Hd Hdone].
    rewrite (IH Hrel Hdone). unfold weight, ends_released, done in *.
    rewrite Hd in Ht. simpl in Ht. rewrite Ht. reflexivity. }
  rewrite holders_weight, Hnone in Hslots.
  assert (Hempty : waiters st = []).
  { destruct (waiters st) as [|w ws]; [reflexivity|].
    apply Forall_cons in Hq as [(t & Ht & Hhead) _].
    pose proof (Forall_lookup_1 _ _ _ _ Hdone Ht) as Hd. unfold done in Hd.
    rewrite Hd in Hhead. discriminate. }
  destruct (limiter st) as [v ws]. simpl in *. unfold _concurrency_limiter.
  f_equal; [lia|exact Hempty].
Qed.

Section Runs.

Variable W : call -> outcome string.
Variable clean_indents : string -> string.
Variable environ : gmap string string.
Variable default_llm : string.
Variable today : string.
Variable str_of_float : Q -> string.
Variable policy : PredictionExtractor.missing_option_policy.
Variable str_of_option_list : PredictionExtractor.PredictedOptionList -> string.
Variable str_of_percentiles : list (N * Q) -> string.
Variable binary_template : MetaculusQuestion -> string -> string -> string.
Variable multiple_choice_template : MultipleChoiceQuestion -> string -> string -> string.
Variable numeric_template : NumericQuestion -> string -> string -> string -> string -> string.

Abbreviation program :=
  (fun question => trace (forecast_question W clean_indents environ default_llm today
      str_of_float policy str_of_option_list str_of_percentiles binary_template
      multiple_choice_template numeric_template question)).

(** The events of a question end with its slot given back. *)
Lemma program_ends_released question : holds_after false (program question) = false.
Proof.
  destruct (program_shape W clean_indents environ default_llm today str_of_float policy
              str_of_option_list str_of_percentiles binary_template
              multiple_choice_template numeric_template question)
    as (body & after & _ & -> & Hbody & Hafter).
  simpl. rewrite holds_after_app, (limiter_free_holds body true Hbody). simpl.
  apply limiter_free_holds, Hafter.
Qed.

Lemma run_sound questions schedule :
  sound (exec schedule (start (map program questions))).
Proof.
  apply exec_sound, start_sound; rewrite Forall_map; apply Forall_forall; intros question _.
  - apply program_well_guarded.
  - apply program_ends_released.
Qed.

(** The limiter never deadlocks: at every moment of a run at which some
    question has events left, some question performs its next event,
    whichever providers and model calls have failed. *)
Theorem limiter_never_deadlocks (questions : list question) (schedule : list nat) :
  unfinished (exec schedule (start (map program questions))) ->
  exists j, can_move (exec schedule (start (map program questions))) j.
Proof.
  intros Hleft.
  pose proof (run_sound questions schedule) as Hsound.
  exact (sound_progress _ Hsound Hleft).
Qed.

(** Every run can be completed: whatever has happened so far, some further
    schedule brings every question to its end. *)
Theorem every_run_can_finish (questions : list question) (schedule : list nat) :
  exists rest,
    Forall done (tasks (exec (schedule ++ rest) (start (map program questions)))).
Proof.
  destruct (sound_completion _ _ (run_sound questions schedule) eq_refl) as (rest & Hdone).
  exists rest. rewrite exec_app. exact Hdone.
Qed.

(** No slot is lost: whenever every question of a run is done, the limiter
    is back at its capacity of 2 with nobody waiting, whether the research of
    a question returned or raised. *)
Theorem limiter_is_free_when_all_done (questions : list question) (schedule : list nat) :
  Forall done (tasks (exec schedule (start (map program questions)))) ->
  limiter (exec schedule (start (map program questions))) = _concurrency_limiter.
Proof.
  intros Hdone.
  pose proof (run_sound questions schedule) as Hsound.
  exact (sound_done_free _ Hsound Hdone).
Qed.

End Runs.

(** Three questions whose research fails: AskNews is configured and down. *)
Definition failing_research : list question := [Binary rain; Binary rain; Binary rain].

Definition failing_programs : list (list event) :=
  map (fun question =>
         trace (forecast_question asknews_down id asknews_and_exa
                  "metaculus/openai/o4-mini" "2025-06-01" print_float
                  PredictionExtractor.FailOnMissing (fun _ => "") (fun _ => "")
                  bare_template bare_mc_template bare_numeric_template question))
      failing_research.

Lemma limiter_never_deadlocks_witness :
  waiters (exec [0; 1; 2] (start failing_programs)) = [2]
  /\ exists j, can_move (exec [0; 1; 2] (start failing_programs)) j.
Proof.
  split; [reflexivity|].
  apply (limiter_never_deadlocks asknews_down id asknews_and_exa
           "metaculus/openai/o4-mini" "2025-06-01" print_float
           PredictionExtractor.FailOnMissing (fun _ => "") (fun _ => "")
           bare_template bare_mc_template bare_numeric_template failing_research [0; 1; 2]).
  exists 0. eexists. split; [reflexivity|discriminate].
Defined.

Lemma limiter_is_free_when_all_done_witness :
  limiter (exec [0; 1; 2; 0; 0; 1; 1; 2; 2; 2] (start failing_programs))
  = _concurrency_limiter.
Proof.
  apply (limiter_is_free_when_all_done asknews_down id asknews_and_exa
           "metaculus/openai/o4-mini" "2025-06-01" print_float
           PredictionExtractor.FailOnMissing (fun _ => "") (fun _ => "")
           bare_template bare_mc_template bare_numeric_template failing_research
           [0; 1; 2; 0; 0; 1; 1; 2; 2; 2]).
  repeat constructor.
Defined.

End LimiterProgress.
